(** * Selection tracking of the terminal core

    A shallow embedding of [src/cascadia/TerminalCore/TerminalSelection.cpp]
    (the selection members of [Microsoft::Terminal::Core::Terminal]) and the
    properties of the selection that the specification states.

    Conventions of the embedding:
    - a [SHORT] is a [Z] in the range [SHORT_MIN .. SHORT_MAX]; the only place
      where the source lets a [SHORT] wrap around is the [row++] of the loop
      of [_GetSelectionRects], written out with [wrap_short];
    - a C++ exception is a value of [exception]; a member function that can
      throw returns a [result];
    - the mutating members are computations of the monad [M], which threads
      the terminal through and keeps the writes done before a throw;
    - the loop of [_GetSelectionRects] is run with fuel: [None] says that the
      loop has not left within the fuel given. *)

From Stdlib Require Import ZArith Lia Bool String Sorted.
From stdpp Require Import base tactics list list_numbers.

Local Open Scope Z_scope.

(** ** Machine integers and failures *)

Definition SHORT_MIN : Z := -32768.
Definition SHORT_MAX : Z := 32767.

(** [in_short z]: [z] is representable as a [SHORT]. *)
Definition in_short (z : Z) : Prop := SHORT_MIN <= z <= SHORT_MAX.
Definition fits_short (z : Z) : bool := (SHORT_MIN <=? z) && (z <=? SHORT_MAX).

(** Conversion of an [int] to [SHORT] as the compiler of the source does it
    (two's complement), used for [row++] on a [SHORT]. *)
Definition wrap_short (z : Z) : Z := (z + 32768) mod 65536 - 32768.

(** What the members throw: the [HRESULT] of [intsafe.h]'s checked
    arithmetic, raised by [THROW_IF_FAILED], and [gsl::narrowing_error],
    raised by [gsl::narrow]. *)
Inductive exception : Set :=
| ArithmeticOverflow
| NarrowingError.

Inductive result (A : Type) : Type :=
| Ok (a : A)
| Throw (e : exception).
Arguments Ok {A} a.
Arguments Throw {A} e.

Inductive HRESULT : Set :=
| S_OK
| INTSAFE_E_ARITHMETIC_OVERFLOW.

(** The value [intsafe.h] stores in the out parameter on failure. *)
Definition SHORT_ERROR : Z := -1.

(** [ShortAdd a b &r] and [ShortSub a b &r] of [intsafe.h]: the [HRESULT]
    and the value written to [r]. *)
Definition LongToShort (lOperand : Z) : HRESULT * Z :=
  if fits_short lOperand then (S_OK, lOperand)
  else (INTSAFE_E_ARITHMETIC_OVERFLOW, SHORT_ERROR).
Definition ShortAdd (sAugend sAddend : Z) : HRESULT * Z :=
  LongToShort (sAugend + sAddend).
Definition ShortSub (sMinuend sSubtrahend : Z) : HRESULT * Z :=
  LongToShort (sMinuend - sSubtrahend).

(** [gsl::narrow<SHORT>(i)] for an [int] [i]. *)
Definition narrow_SHORT (i : Z) : result Z :=
  if fits_short i then Ok i else Throw NarrowingError.

(** ** The types of the console API *)

Module COORD.
Record t : Set := mk { X : Z; Y : Z }.
End COORD.

Module SMALL_RECT.
Record t : Set := mk { Left : Z; Top : Z; Right : Z; Bottom : Z }.
End SMALL_RECT.

(** ** The collaborators

    The viewport and the text buffer are classes of the repository outside
    this file of the source. They are taken as parameters: an object is the
    record of the member functions that the selection code calls. The
    member functions are taken to return on every position; what they do on
    a position outside their bounds is not in this file of the source. *)

Module Viewport.
(** [DecrementInBounds] and [IncrementInBounds] take the position by
    reference: they give back the success flag and the position after the
    call. *)
Record t : Type := mk {
  Top : Z;
  RightInclusive : Z;
  DecrementInBounds : COORD.t -> bool * COORD.t;
  IncrementInBounds : COORD.t -> bool * COORD.t
}.
End Viewport.

Module DbcsAttribute.
Inductive t : Set := Single | Leading | Trailing.
Definition IsLeading (a : t) : bool :=
  match a with Leading => true | _ => false end.
Definition IsTrailing (a : t) : bool :=
  match a with Trailing => true | _ => false end.
End DbcsAttribute.

Definition wstring : Set := string.

Module TextBuffer.
(** [GetCellDataAt pos] stands for [GetCellDataAt(pos)->DbcsAttr()], and
    [GetTextForClipboard] for the [text] member of the data that
    [GetTextForClipboard] returns (the colour callbacks are passed through
    and not modelled). *)
Record t : Type := mk {
  GetSize : Viewport.t;
  GetCellDataAt : COORD.t -> DbcsAttribute.t;
  GetTextForClipboard : bool -> bool -> list SMALL_RECT.t -> list wstring
}.
End TextBuffer.

(** ** The terminal: the members that the selection code reads and writes *)

Record Terminal : Type := mkTerminal {
  _selectionActive : bool;
  _boxSelection : bool;
  _selectionAnchor : COORD.t;
  _selectionAnchor_YOffset : Z;
  _endSelectionPosition : COORD.t;
  _endSelectionPosition_YOffset : Z;
  _scrollOffset : Z;
  _mutableViewport : Viewport.t;
  _buffer : TextBuffer.t
}.

(** Modelled from the spec: [Terminal::_ViewStartIndex] is defined outside
    this file of the source; the specification gives it as the absolute
    buffer row at the top of the viewport when a position is recorded. *)
Definition _ViewStartIndex (t : Terminal) : Z :=
  Viewport.Top (_mutableViewport t).

Module Set_.
Definition selectionActive (b : bool) (t : Terminal) : Terminal :=
  mkTerminal b (_boxSelection t) (_selectionAnchor t)
    (_selectionAnchor_YOffset t) (_endSelectionPosition t)
    (_endSelectionPosition_YOffset t) (_scrollOffset t)
    (_mutableViewport t) (_buffer t).
Definition boxSelection (b : bool) (t : Terminal) : Terminal :=
  mkTerminal (_selectionActive t) b (_selectionAnchor t)
    (_selectionAnchor_YOffset t) (_endSelectionPosition t)
    (_endSelectionPosition_YOffset t) (_scrollOffset t)
    (_mutableViewport t) (_buffer t).
Definition selectionAnchor (c : COORD.t) (t : Terminal) : Terminal :=
  mkTerminal (_selectionActive t) (_boxSelection t) c
    (_selectionAnchor_YOffset t) (_endSelectionPosition t)
    (_endSelectionPosition_YOffset t) (_scrollOffset t)
    (_mutableViewport t) (_buffer t).
Definition selectionAnchor_YOffset (z : Z) (t : Terminal) : Terminal :=
  mkTerminal (_selectionActive t) (_boxSelection t) (_selectionAnchor t)
    z (_endSelectionPosition t)
    (_endSelectionPosition_YOffset t) (_scrollOffset t)
    (_mutableViewport t) (_buffer t).
Definition endSelectionPosition (c : COORD.t) (t : Terminal) : Terminal :=
  mkTerminal (_selectionActive t) (_boxSelection t) (_selectionAnchor t)
    (_selectionAnchor_YOffset t) c
    (_endSelectionPosition_YOffset t) (_scrollOffset t)
    (_mutableViewport t) (_buffer t).
Definition endSelectionPosition_YOffset (z : Z) (t : Terminal) : Terminal :=
  mkTerminal (_selectionActive t) (_boxSelection t) (_selectionAnchor t)
    (_selectionAnchor_YOffset t) (_endSelectionPosition t)
    z (_scrollOffset t)
    (_mutableViewport t) (_buffer t).
(** Scrolling is done by other members of the terminal: they change the
    live scroll offset and the viewport. *)
Definition scrollOffset (z : Z) (t : Terminal) : Terminal :=
  mkTerminal (_selectionActive t) (_boxSelection t) (_selectionAnchor t)
    (_selectionAnchor_YOffset t) (_endSelectionPosition t)
    (_endSelectionPosition_YOffset t) z
    (_mutableViewport t) (_buffer t).
Definition mutableViewport (v : Viewport.t) (t : Terminal) : Terminal :=
  mkTerminal (_selectionActive t) (_boxSelection t) (_selectionAnchor t)
    (_selectionAnchor_YOffset t) (_endSelectionPosition t)
    (_endSelectionPosition_YOffset t) (_scrollOffset t)
    v (_buffer t).
End Set_.

(** ** The monad of the mutating members *)

Definition M (A : Type) : Type := Terminal -> Terminal * result A.

Definition ret {A} (a : A) : M A := fun t => (t, Ok a).
Definition throw {A} (e : exception) : M A := fun t => (t, Throw e).
Definition bind {A B} (m : M A) (k : A -> M B) : M B :=
  fun t =>
    match m t with
    | (t', Ok a) => k a t'
    | (t', Throw e) => (t', Throw e)
    end.
Definition gets {A} (f : Terminal -> A) : M A := fun t => (t, Ok (f t)).
Definition modify (f : Terminal -> Terminal) : M unit := fun t => (f t, Ok tt).
Definition lift {A} (r : result A) : M A := fun t => (t, r).

Notation "'let*' x ':=' m 'in' k" := (bind m (fun x => k))
  (at level 10, x name, m at level 100, k at level 200, only parsing).
Notation "m ';;' k" := (bind m (fun _ => k))
  (at level 100, k at level 200, right associativity, only parsing).

Definition THROW_IF_FAILED (hr : HRESULT) : M unit :=
  match hr with
  | S_OK => ret tt
  | INTSAFE_E_ARITHMETIC_OVERFLOW => throw ArithmeticOverflow
  end.

(** ** The members of [TerminalSelection.cpp] *)

Definition _ExpandWideGlyphSelection_Left
    (t : Terminal) (x_pos y_pos : Z) : Z :=
  let position := COORD.mk x_pos y_pos in
  let attr := TextBuffer.GetCellDataAt (_buffer t) position in
  let position :=
    if DbcsAttribute.IsTrailing attr then
      let (fSuccess, position) :=
        Viewport.DecrementInBounds (_mutableViewport t) position in
      if negb fSuccess
      then snd (Viewport.IncrementInBounds (_mutableViewport t) position)
      else position
    else position in
  COORD.X position.

Definition _ExpandWideGlyphSelection_Right
    (t : Terminal) (x_pos y_pos : Z) : Z :=
  let position := COORD.mk x_pos y_pos in
  let attr := TextBuffer.GetCellDataAt (_buffer t) position in
  let position :=
    if DbcsAttribute.IsLeading attr then
      let (fSuccess, position) :=
        Viewport.IncrementInBounds (_mutableViewport t) position in
      if negb fSuccess
      then snd (Viewport.DecrementInBounds (_mutableViewport t) position)
      else position
    else position in
  COORD.X position.

(** The body of the loop of [_GetSelectionRects] up to the two calls of the
    wide glyph expansion: the rectangle of [row] as the shape of the
    selection gives it. *)
Definition selectionRow_shape
    (t : Terminal) (higherCoord lowerCoord : COORD.t) (row : Z)
    : SMALL_RECT.t :=
  if _boxSelection t || (COORD.Y higherCoord =? COORD.Y lowerCoord) then
    SMALL_RECT.mk
      (Z.min (COORD.X higherCoord) (COORD.X lowerCoord)) row
      (Z.max (COORD.X higherCoord) (COORD.X lowerCoord)) row
  else
    SMALL_RECT.mk
      (if row =? COORD.Y higherCoord then COORD.X higherCoord else 0) row
      (if row =? COORD.Y lowerCoord then COORD.X lowerCoord
       else Viewport.RightInclusive (TextBuffer.GetSize (_buffer t))) row.

(** The two calls of the wide glyph expansion, on the left and on the right
    edge of the rectangle of [row]. *)
Definition selectionRow_expand
    (t : Terminal) (row : Z) (selectionRow : SMALL_RECT.t) : SMALL_RECT.t :=
  SMALL_RECT.mk
    (_ExpandWideGlyphSelection_Left t (SMALL_RECT.Left selectionRow) row)
    (SMALL_RECT.Top selectionRow)
    (_ExpandWideGlyphSelection_Right t (SMALL_RECT.Right selectionRow) row)
    (SMALL_RECT.Bottom selectionRow).

Definition selectionRow
    (t : Terminal) (higherCoord lowerCoord : COORD.t) (row : Z)
    : SMALL_RECT.t :=
  selectionRow_expand t row (selectionRow_shape t higherCoord lowerCoord row).

(** [for (auto row = higherCoord.Y; row <= lowerCoord.Y; row++)]: [row] is a
    [SHORT], so [row++] wraps around at [SHORT_MAX]. *)
Fixpoint selectionRows_loop
    (fuel : nat) (t : Terminal) (higherCoord lowerCoord : COORD.t)
    (row : Z) (selectionArea : list SMALL_RECT.t)
    : option (list SMALL_RECT.t) :=
  match fuel with
  | O => None
  | S fuel' =>
      if row <=? COORD.Y lowerCoord then
        selectionRows_loop fuel' t higherCoord lowerCoord
          (wrap_short (row + 1))
          (selectionArea ++ [selectionRow t higherCoord lowerCoord row])
      else Some selectionArea
  end.

Definition _GetSelectionRects (fuel : nat) (t : Terminal)
    : option (result (list SMALL_RECT.t)) :=
  if negb (_selectionActive t) then Some (Ok [])
  else
    match ShortAdd (COORD.Y (_selectionAnchor t)) (_selectionAnchor_YOffset t)
    with
    | (INTSAFE_E_ARITHMETIC_OVERFLOW, _) => Some (Throw ArithmeticOverflow)
    | (S_OK, temp1) =>
      match ShortAdd (COORD.Y (_endSelectionPosition t))
                     (_endSelectionPosition_YOffset t)
      with
      | (INTSAFE_E_ARITHMETIC_OVERFLOW, _) => Some (Throw ArithmeticOverflow)
      | (S_OK, temp2) =>
        let selectionAnchorWithOffset :=
          COORD.mk (COORD.X (_selectionAnchor t)) temp1 in
        let endSelectionPositionWithOffset :=
          COORD.mk (COORD.X (_endSelectionPosition t)) temp2 in
        let higherCoord :=
          if COORD.Y selectionAnchorWithOffset
             <=? COORD.Y endSelectionPositionWithOffset
          then selectionAnchorWithOffset else endSelectionPositionWithOffset in
        let lowerCoord :=
          if COORD.Y selectionAnchorWithOffset
             >? COORD.Y endSelectionPositionWithOffset
          then selectionAnchorWithOffset else endSelectionPositionWithOffset in
        match selectionRows_loop fuel t higherCoord lowerCoord
                (COORD.Y higherCoord) [] with
        | Some selectionArea => Some (Ok selectionArea)
        | None => None
        end
      end
    end.

Definition IsSelectionActive (t : Terminal) : bool := _selectionActive t.

Definition SetEndSelectionPosition (position : COORD.t) : M unit :=
  modify (Set_.endSelectionPosition position);;
  let* scrollOffset := gets _scrollOffset in
  let* sSubtrahend := lift (narrow_SHORT scrollOffset) in
  let* sMinuend := gets (fun t => COORD.Y (_endSelectionPosition t)) in
  let (hr, sResult) := ShortSub sMinuend sSubtrahend in
  modify (fun t => Set_.endSelectionPosition
    (COORD.mk (COORD.X (_endSelectionPosition t)) sResult) t);;
  THROW_IF_FAILED hr;;
  let* viewStart := gets _ViewStartIndex in
  let* yOffset := lift (narrow_SHORT viewStart) in
  modify (Set_.endSelectionPosition_YOffset yOffset).

Definition SetSelectionAnchor (position : COORD.t) : M unit :=
  modify (Set_.selectionAnchor position);;
  let* scrollOffset := gets _scrollOffset in
  let* sSubtrahend := lift (narrow_SHORT scrollOffset) in
  let* sMinuend := gets (fun t => COORD.Y (_selectionAnchor t)) in
  let (hr, sResult) := ShortSub sMinuend sSubtrahend in
  modify (fun t => Set_.selectionAnchor
    (COORD.mk (COORD.X (_selectionAnchor t)) sResult) t);;
  THROW_IF_FAILED hr;;
  let* viewStart := gets _ViewStartIndex in
  let* yOffset := lift (narrow_SHORT viewStart) in
  modify (Set_.selectionAnchor_YOffset yOffset);;
  modify (Set_.selectionActive true);;
  SetEndSelectionPosition position.

Definition SetBoxSelection (isEnabled : bool) (t : Terminal) : Terminal :=
  Set_.boxSelection isEnabled t.

Definition ClearSelection (t : Terminal) : Terminal :=
  let t := Set_.selectionActive false t in
  let t := Set_.selectionAnchor (COORD.mk 0 0) t in
  let t := Set_.endSelectionPosition (COORD.mk 0 0) t in
  let t := Set_.selectionAnchor_YOffset 0 t in
  Set_.endSelectionPosition_YOffset 0 t.

(** [result += text] for every [text] of [data.text]. *)
Definition concat_text (data : list wstring) : wstring :=
  fold_left String.append data EmptyString.

Definition RetrieveSelectedTextFromBuffer
    (fuel : nat) (trimTrailingWhitespace : bool) (t : Terminal)
    : option (result wstring) :=
  match _GetSelectionRects fuel t with
  | None => None
  | Some (Throw e) => Some (Throw e)
  | Some (Ok selectionRects) =>
      let data :=
        TextBuffer.GetTextForClipboard (_buffer t)
          (negb (_boxSelection t)) trimTrailingWhitespace selectionRects in
      Some (Ok (concat_text data))
  end.

(** ** Notions used to state the properties *)

(** The two recorded end points, resolved through the offset frozen with
    each: the column and the absolute row [coordinate.row + rowOffset]. *)
Definition anchorAbsolute (t : Terminal) : COORD.t :=
  COORD.mk (COORD.X (_selectionAnchor t))
           (COORD.Y (_selectionAnchor t) + _selectionAnchor_YOffset t).
Definition endAbsolute (t : Terminal) : COORD.t :=
  COORD.mk (COORD.X (_endSelectionPosition t))
           (COORD.Y (_endSelectionPosition t)
            + _endSelectionPosition_YOffset t).

(** The upper and the lower of the two end points. *)
Definition topCoord (t : Terminal) : COORD.t :=
  if COORD.Y (anchorAbsolute t) <=? COORD.Y (endAbsolute t)
  then anchorAbsolute t else endAbsolute t.
Definition bottomCoord (t : Terminal) : COORD.t :=
  if COORD.Y (anchorAbsolute t) >? COORD.Y (endAbsolute t)
  then anchorAbsolute t else endAbsolute t.

Definition anchorAbsoluteRow (t : Terminal) : Z :=
  COORD.Y (anchorAbsolute t).
Definition endAbsoluteRow (t : Terminal) : Z :=
  COORD.Y (endAbsolute t).

(** Both end points resolve to a [SHORT]. *)
Definition resolves (t : Terminal) : Prop :=
  in_short (anchorAbsoluteRow t) /\ in_short (endAbsoluteRow t).

(** The number of rows from the upper to the lower end point. *)
Definition rowCount (t : Terminal) : Z :=
  COORD.Y (bottomCoord t) - COORD.Y (topCoord t) + 1.

(** The rows before and after the wide glyph expansion, one for each
    absolute row from the upper to the lower end point. *)
Definition shapedRows (t : Terminal) : list SMALL_RECT.t :=
  selectionRow_shape t (topCoord t) (bottomCoord t)
    <$> seqZ (COORD.Y (topCoord t)) (rowCount t).
Definition selectedRows (t : Terminal) : list SMALL_RECT.t :=
  selectionRow t (topCoord t) (bottomCoord t)
    <$> seqZ (COORD.Y (topCoord t)) (rowCount t).

(** What a successful recording of [position] stores, and what a recording
    that fails in the subtraction leaves behind. *)
Definition adjustedPosition (t : Terminal) (position : COORD.t) : COORD.t :=
  COORD.mk (COORD.X position) (COORD.Y position - _scrollOffset t).
Definition failedPosition (position : COORD.t) : COORD.t :=
  COORD.mk (COORD.X position) SHORT_ERROR.

(** The wide glyph expansion of both edges of a rectangle of one row. *)
Definition expandRow (t : Terminal) (r : SMALL_RECT.t) : SMALL_RECT.t :=
  selectionRow_expand t (SMALL_RECT.Top r) r.

(** The columns of both end points are columns of the buffer. *)
Definition columns_on_buffer (t : Terminal) : Prop :=
  let rightmost := Viewport.RightInclusive (TextBuffer.GetSize (_buffer t)) in
  0 <= COORD.X (_selectionAnchor t) <= rightmost
  /\ 0 <= COORD.X (_endSelectionPosition t) <= rightmost.

(** Each expansion that applies succeeds in its first direction and moves
    outwards: a trailing half can be left by a decrement that does not
    enlarge the column, a leading half by an increment that does not
    lessen it. *)
Definition expands_outwards (t : Terminal) : Prop :=
  forall pos : COORD.t,
    match TextBuffer.GetCellDataAt (_buffer t) pos with
    | DbcsAttribute.Trailing =>
        exists pos',
          Viewport.DecrementInBounds (_mutableViewport t) pos = (true, pos')
          /\ COORD.X pos' <= COORD.X pos
    | DbcsAttribute.Leading =>
        exists pos',
          Viewport.IncrementInBounds (_mutableViewport t) pos = (true, pos')
          /\ COORD.X pos <= COORD.X pos'
    | DbcsAttribute.Single => True
    end.

(** The absolute rows of what [_GetSelectionRects] gives. *)
Definition absoluteRows (o : option (result (list SMALL_RECT.t)))
    : option (result (list Z)) :=
  match o with
  | None => None
  | Some (Throw e) => Some (Throw e)
  | Some (Ok rects) => Some (Ok (SMALL_RECT.Top <$> rects))
  end.

(** The terminal with the anchor and the end of the selection exchanged,
    each with its row offset: the same drag done in the other direction. *)
Definition swapEndPoints (t : Terminal) : Terminal :=
  mkTerminal (_selectionActive t) (_boxSelection t)
    (_endSelectionPosition t) (_endSelectionPosition_YOffset t)
    (_selectionAnchor t) (_selectionAnchor_YOffset t)
    (_scrollOffset t) (_mutableViewport t) (_buffer t).

(** The first visible row of the buffer: the top of the viewport less the
    rows scrolled back. *)
Definition visibleStart (t : Terminal) : Z :=
  _ViewStartIndex t - _scrollOffset t.

(** No cell of the buffer is a half of a wide glyph. *)
Definition narrow_buffer (t : Terminal) : Prop :=
  forall pos : COORD.t,
    TextBuffer.GetCellDataAt (_buffer t) pos = DbcsAttribute.Single.

(** The halves of every wide glyph are side by side on their row and the
    viewport steps from one to the other: the decrement off a trailing half
    succeeds and reaches the column of a leading half of that row, the
    increment off a leading half succeeds and reaches the column of a
    trailing half of that row. *)
Definition glyphs_whole (t : Terminal) : Prop :=
  forall pos : COORD.t,
    match TextBuffer.GetCellDataAt (_buffer t) pos with
    | DbcsAttribute.Trailing =>
        exists pos',
          Viewport.DecrementInBounds (_mutableViewport t) pos = (true, pos')
          /\ TextBuffer.GetCellDataAt (_buffer t)
               (COORD.mk (COORD.X pos') (COORD.Y pos))
             = DbcsAttribute.Leading
    | DbcsAttribute.Leading =>
        exists pos',
          Viewport.IncrementInBounds (_mutableViewport t) pos = (true, pos')
          /\ TextBuffer.GetCellDataAt (_buffer t)
               (COORD.mk (COORD.X pos') (COORD.Y pos))
             = DbcsAttribute.Trailing
    | DbcsAttribute.Single => True
    end.

(** ** Concrete collaborators for the examples *)

Module Clamped.
(** Modelled from the spec: [Viewport::DecrementInBounds] and
    [Viewport::IncrementInBounds] are defined outside this file of the
    source; the specification gives them as the bounds-clamped
    single-column decrement and increment of a coordinate, which return
    success or failure rather than wrapping or going out of range. *)
Definition DecrementInBounds (left : Z) (pos : COORD.t) : bool * COORD.t :=
  if left <? COORD.X pos
  then (true, COORD.mk (COORD.X pos - 1) (COORD.Y pos))
  else (false, pos).
Definition IncrementInBounds (right : Z) (pos : COORD.t) : bool * COORD.t :=
  if COORD.X pos <? right
  then (true, COORD.mk (COORD.X pos + 1) (COORD.Y pos))
  else (false, pos).

(** A viewport whose columns are [0 .. right] and whose first row is
    [top]. *)
Definition viewport (top right : Z) : Viewport.t :=
  Viewport.mk top right (DecrementInBounds 0) (IncrementInBounds right).
End Clamped.

Module Example.
Import DbcsAttribute.

(** A buffer of ten columns that yields one fragment for each rectangle
    and holds the cells [cells]. *)
Definition buffer (cells : COORD.t -> DbcsAttribute.t) : TextBuffer.t :=
  TextBuffer.mk (Clamped.viewport 0 9) cells
    (fun _ _ rects => (fun _ => "."%string) <$> rects).

Definition narrow_cells (pos : COORD.t) : DbcsAttribute.t := Single.

(** A wide glyph in the columns 3 and 4 of the row 2. *)
Definition wide_cells (pos : COORD.t) : DbcsAttribute.t :=
  if (COORD.X pos =? 3) && (COORD.Y pos =? 2) then Leading
  else if (COORD.X pos =? 4) && (COORD.Y pos =? 2) then Trailing
  else Single.

(** A leading half in the last column of the row 0. *)
Definition edge_cells (pos : COORD.t) : DbcsAttribute.t :=
  if (COORD.X pos =? 9) && (COORD.Y pos =? 0) then Leading else Single.

(** A trailing half in the first cell of the viewport. *)
Definition origin_cells (pos : COORD.t) : DbcsAttribute.t :=
  if (COORD.X pos =? 0) && (COORD.Y pos =? 0) then Trailing else Single.

(** A terminal without a selection, not scrolled, its viewport at the top
    of the buffer. *)
Definition idle (cells : COORD.t -> DbcsAttribute.t) : Terminal :=
  mkTerminal false false (COORD.mk 0 0) 0 (COORD.mk 0 0) 0 0
    (Clamped.viewport 0 9) (buffer cells).

(** The selection from [anchor] to [extent], taken with the mouse on
    [idle cells]. *)
Definition selected (cells : COORD.t -> DbcsAttribute.t)
    (anchor extent : COORD.t) : Terminal :=
  fst (SetEndSelectionPosition extent
         (fst (SetSelectionAnchor anchor (idle cells)))).

(** One row, from (5, 2) back to (1, 2). *)
Definition one_row : Terminal :=
  selected narrow_cells (COORD.mk 5 2) (COORD.mk 1 2).

(** Three rows, from (3, 1) to (2, 3). *)
Definition three_rows : Terminal :=
  selected narrow_cells (COORD.mk 3 1) (COORD.mk 2 3).

(** The same selection after the view has been scrolled back by five rows
    and the viewport has moved down to the row 7 of the buffer. *)
Definition three_rows_scrolled : Terminal :=
  Set_.scrollOffset 5
    (Set_.mutableViewport (Clamped.viewport 7 9) three_rows).

(** From (4, 1) to the leading half of the wide glyph. *)
Definition across_glyph : Terminal :=
  selected wide_cells (COORD.mk 4 1) (COORD.mk 3 2).

(** The trailing half of the wide glyph alone. *)
Definition on_trailing : Terminal :=
  selected wide_cells (COORD.mk 4 2) (COORD.mk 4 2).

(** The first cell of the viewport alone, a trailing half. *)
Definition at_origin : Terminal :=
  selected origin_cells (COORD.mk 0 0) (COORD.mk 0 0).

(** The selection begun on the row [SHORT_MAX] of a viewport whose first
    row is the row 1 of the buffer: its end points do not resolve to a
    [SHORT]. *)
Definition unresolved : Terminal :=
  fst (SetSelectionAnchor (COORD.mk 0 SHORT_MAX)
         (Set_.mutableViewport (Clamped.viewport 1 9) (idle narrow_cells))).

(** The one cell in the column 0 of the row [SHORT_MAX]. *)
Definition last_row : Terminal :=
  selected narrow_cells (COORD.mk 0 SHORT_MAX) (COORD.mk 0 SHORT_MAX).

(** Three rows, from (3, 1) to (2, 3), in box mode. *)
Definition three_rows_box : Terminal := SetBoxSelection true three_rows.

(** The selection begun at (3, 1); then the viewport moves down to the row 7
    of the buffer and the view is scrolled back by five rows; then the
    selection is extended to (2, 3). *)
Definition dragged_while_scrolling : Terminal :=
  fst (SetEndSelectionPosition (COORD.mk 2 3)
         (Set_.scrollOffset 5
            (Set_.mutableViewport (Clamped.viewport 7 9)
               (fst (SetSelectionAnchor (COORD.mk 3 1)
                       (idle narrow_cells)))))).

(** A terminal scrolled back as far as a [SHORT] counts. *)
Definition deep_scrolled : Terminal :=
  Set_.scrollOffset SHORT_MAX (idle narrow_cells).

(** A terminal whose scroll offset is not a [SHORT]. *)
Definition far_scrolled : Terminal :=
  Set_.scrollOffset 40000 (idle narrow_cells).
End Example.

(** ** Tactics *)

(** Runs a mutating member down to the checked arithmetic. *)
Ltac run_member :=
  unfold SetSelectionAnchor, SetEndSelectionPosition, ShortSub,
    bind, modify, gets, lift, ret, throw, THROW_IF_FAILED;
  cbn.

(** The writes of the end points leave the viewport as it is. *)
Ltac view_start t :=
  repeat match goal with
  | |- context [_ViewStartIndex ?u] =>
      lazymatch u with
      | t => fail
      | _ => change (_ViewStartIndex u) with (_ViewStartIndex t)
      end
  end.

(** ** Machine integers *)

Lemma fits_short_true (z : Z) : fits_short z = true <-> in_short z.
Proof. unfold fits_short, in_short. rewrite andb_true_iff, !Z.leb_le. tauto. Qed.

Lemma fits_short_false (z : Z) : fits_short z = false <-> ~ in_short z.
Proof. rewrite <- fits_short_true. destruct (fits_short z); split; congruence. Qed.

Lemma wrap_short_id (z : Z) : in_short z -> wrap_short z = z.
Proof.
  unfold in_short, SHORT_MIN, SHORT_MAX, wrap_short. intros Hz.
  rewrite Z.mod_small; lia.
Qed.

Lemma wrap_short_in_short (z : Z) : in_short (wrap_short z).
Proof.
  unfold in_short, SHORT_MIN, SHORT_MAX, wrap_short.
  pose proof (Z.mod_pos_bound (z + 32768) 65536). lia.
Qed.

Lemma LongToShort_ok (z : Z) : in_short z -> LongToShort z = (S_OK, z).
Proof. intros Hz%fits_short_true. unfold LongToShort. now rewrite Hz. Qed.

Lemma LongToShort_overflow (z : Z) :
  ~ in_short z -> LongToShort z = (INTSAFE_E_ARITHMETIC_OVERFLOW, SHORT_ERROR).
Proof. intros Hz%fits_short_false. unfold LongToShort. now rewrite Hz. Qed.

Lemma narrow_SHORT_ok (z : Z) : in_short z -> narrow_SHORT z = Ok z.
Proof. intros Hz%fits_short_true. unfold narrow_SHORT. now rewrite Hz. Qed.

Lemma narrow_SHORT_throws (z : Z) :
  ~ in_short z -> narrow_SHORT z = Throw NarrowingError.
Proof. intros Hz%fits_short_false. unfold narrow_SHORT. now rewrite Hz. Qed.

Lemma in_short_dec (z : Z) : {in_short z} + {~ in_short z}.
Proof.
  destruct (fits_short z) eqn:E.
  - left. now apply fits_short_true.
  - right. now apply fits_short_false.
Defined.

(** ** The loop of [_GetSelectionRects] *)

Section Loop.
Variable t : Terminal.
Variables higherCoord lowerCoord : COORD.t.

(** Below [SHORT_MAX] the loop leaves after the row of the lower end point,
    with one rectangle for each row it went through. *)
Lemma selectionRows_loop_returns :
  COORD.Y lowerCoord < SHORT_MAX ->
  forall (n fuel : nat) (row : Z) (acc : list SMALL_RECT.t),
    SHORT_MIN <= row ->
    Z.of_nat n = COORD.Y lowerCoord - row + 1 ->
    (n < fuel)%nat ->
    selectionRows_loop fuel t higherCoord lowerCoord row acc = Some (acc ++ (selectionRow t higherCoord lowerCoord <$> seqZ row (Z.of_nat n))).
Proof.
  intros Hmax n. induction n as [|n IH]; intros fuel row acc Hrow Hn Hfuel;
    (destruct fuel as [|fuel]; [lia|]); cbn.
  - destruct (Z.leb_spec row (COORD.Y lowerCoord)); [lia|].
    now rewrite seqZ_nil, app_nil_r by lia.
  - destruct (Z.leb_spec row (COORD.Y lowerCoord)); [|lia].
    rewrite wrap_short_id by (unfold in_short; lia).
    rewrite IH by lia.
    rewrite (seqZ_cons row) by lia. cbn.
    rewrite <- app_assoc. cbn.
    replace (Z.succ row) with (row + 1) by lia.
    now replace (Z.pred (Z.of_nat (S n))) with (Z.of_nat n) by lia.
Qed.

(** Whatever the fuel, what the loop returns is that list. *)
Lemma selectionRows_loop_inv :
  COORD.Y lowerCoord < SHORT_MAX ->
  forall (fuel : nat) (row : Z) (acc rects : list SMALL_RECT.t),
    SHORT_MIN <= row <= COORD.Y lowerCoord + 1 ->
    selectionRows_loop fuel t higherCoord lowerCoord row acc = Some rects ->
    rects = acc ++ (selectionRow t higherCoord lowerCoord <$> seqZ row (COORD.Y lowerCoord - row + 1)).
Proof.
  intros Hmax fuel. induction fuel as [|fuel IH]; intros row acc rects Hrow;
    cbn; [discriminate|].
  destruct (Z.leb_spec row (COORD.Y lowerCoord)).
  - rewrite wrap_short_id by (unfold in_short; lia).
    intros Hloop. apply IH in Hloop; [|lia]. subst rects.
    rewrite (seqZ_cons row) by lia. cbn.
    rewrite <- app_assoc. cbn.
    replace (Z.succ row) with (row + 1) by lia.
    now replace (Z.pred (COORD.Y lowerCoord - row + 1))
      with (COORD.Y lowerCoord - (row + 1) + 1) by lia.
  - intros [= <-]. now rewrite seqZ_nil, app_nil_r by lia.
Qed.

(** With the lower end point on the row [SHORT_MAX] the test
    [row <= lowerCoord.Y] holds for every [SHORT]: the loop does not
    leave. *)
Lemma selectionRows_loop_diverges :
  SHORT_MAX <= COORD.Y lowerCoord ->
  forall (fuel : nat) (row : Z) (acc : list SMALL_RECT.t),
    row <= SHORT_MAX ->
    selectionRows_loop fuel t higherCoord lowerCoord row acc = None.
Proof.
  intros Hmax fuel. induction fuel as [|fuel IH]; intros row acc Hrow;
    cbn; [reflexivity|].
  destruct (Z.leb_spec row (COORD.Y lowerCoord)); [|lia].
  apply IH. apply wrap_short_in_short.
Qed.
End Loop.

(** ** What [_GetSelectionRects] computes *)

Lemma topCoord_Y (t : Terminal) :
  COORD.Y (topCoord t)
  = Z.min (COORD.Y (anchorAbsolute t)) (COORD.Y (endAbsolute t)).
Proof. unfold topCoord. destruct (Z.leb_spec (COORD.Y (anchorAbsolute t)) (COORD.Y (endAbsolute t))); lia. Qed.

Lemma bottomCoord_Y (t : Terminal) :
  COORD.Y (bottomCoord t)
  = Z.max (COORD.Y (anchorAbsolute t)) (COORD.Y (endAbsolute t)).
Proof.
  unfold bottomCoord. rewrite Z.gtb_ltb.
  destruct (Z.ltb_spec (COORD.Y (endAbsolute t)) (COORD.Y (anchorAbsolute t))); lia.
Qed.

Lemma rowCount_pos (t : Terminal) : 0 < rowCount t.
Proof. unfold rowCount. rewrite topCoord_Y, bottomCoord_Y. lia. Qed.

Lemma resolves_rows (t : Terminal) :
  resolves t ->
  in_short (COORD.Y (topCoord t)) /\ in_short (COORD.Y (bottomCoord t)).
Proof.
  unfold resolves, anchorAbsoluteRow, endAbsoluteRow, in_short.
  rewrite topCoord_Y, bottomCoord_Y. lia.
Qed.

Lemma resolves_dec (t : Terminal) : {resolves t} + {~ resolves t}.
Proof.
  unfold resolves, anchorAbsoluteRow, endAbsoluteRow.
  destruct (in_short_dec (COORD.Y (anchorAbsolute t)));
    destruct (in_short_dec (COORD.Y (endAbsolute t))); tauto.
Defined.

Lemma _GetSelectionRects_inactive (fuel : nat) (t : Terminal) :
  _selectionActive t = false -> _GetSelectionRects fuel t = Some (Ok []).
Proof. intros H. unfold _GetSelectionRects. now rewrite H. Qed.

Lemma _GetSelectionRects_throws (fuel : nat) (t : Terminal) :
  _selectionActive t = true -> ~ resolves t ->
  _GetSelectionRects fuel t = Some (Throw ArithmeticOverflow).
Proof.
  intros Ha Hr. unfold _GetSelectionRects, ShortAdd. rewrite Ha. cbn.
  unfold resolves, anchorAbsoluteRow, endAbsoluteRow in Hr. cbn in Hr.
  destruct (in_short_dec (COORD.Y (_selectionAnchor t) + _selectionAnchor_YOffset t)) as [H1|H1].
  - rewrite (LongToShort_ok _ H1).
    rewrite LongToShort_overflow; [reflexivity|tauto].
  - now rewrite (LongToShort_overflow _ H1).
Qed.

Lemma _GetSelectionRects_active (fuel : nat) (t : Terminal) :
  _selectionActive t = true -> resolves t ->
  _GetSelectionRects fuel t
  = match selectionRows_loop fuel t (topCoord t) (bottomCoord t)
            (COORD.Y (topCoord t)) [] with
    | Some selectionArea => Some (Ok selectionArea)
    | None => None
    end.
Proof.
  intros Ha [H1 H2]. unfold _GetSelectionRects, ShortAdd. rewrite Ha. cbn.
  unfold anchorAbsoluteRow, endAbsoluteRow in H1, H2. cbn in H1, H2. rewrite (LongToShort_ok _ H1), (LongToShort_ok _ H2).
  reflexivity.
Qed.

(** Enough fuel gives the rows: one more than the number of rows. *)
Lemma _GetSelectionRects_returns (fuel : nat) (t : Terminal) :
  _selectionActive t = true -> resolves t ->
  COORD.Y (bottomCoord t) < SHORT_MAX ->
  (Z.to_nat (rowCount t) < fuel)%nat ->
  _GetSelectionRects fuel t = Some (Ok (selectedRows t)).
Proof.
  intros Ha Hr Hmax Hfuel. rewrite _GetSelectionRects_active by assumption.
  pose proof (rowCount_pos t) as Hpos.
  destruct (resolves_rows t Hr) as [[Hlo _] _].
  rewrite (selectionRows_loop_returns t _ _ Hmax (Z.to_nat (rowCount t)));
    [|assumption|unfold rowCount in *; lia|assumption].
  rewrite Z2Nat.id by lia. reflexivity.
Qed.

Lemma _GetSelectionRects_diverges (fuel : nat) (t : Terminal) :
  _selectionActive t = true -> resolves t ->
  COORD.Y (bottomCoord t) = SHORT_MAX ->
  _GetSelectionRects fuel t = None.
Proof.
  intros Ha Hr Hmax. rewrite _GetSelectionRects_active by assumption.
  destruct (resolves_rows t Hr) as [[_ Hhi] _].
  rewrite selectionRows_loop_diverges; [reflexivity|lia|assumption].
Qed.

(** Whatever the fuel, the rectangles returned for an active selection are
    [selectedRows]. *)
Lemma _GetSelectionRects_inv (fuel : nat) (t : Terminal)
    (rects : list SMALL_RECT.t) :
  _selectionActive t = true ->
  _GetSelectionRects fuel t = Some (Ok rects) ->
  resolves t /\ COORD.Y (bottomCoord t) < SHORT_MAX /\ rects = selectedRows t.
Proof.
  intros Ha Hrects.
  destruct (resolves_dec t) as [Hr|Hr];
    [|rewrite _GetSelectionRects_throws in Hrects by assumption; discriminate].
  destruct (resolves_rows t Hr) as [[Hlo _] [_ Hhi]].
  destruct (Z.eq_dec (COORD.Y (bottomCoord t)) SHORT_MAX) as [Hmax|Hmax];
    [rewrite _GetSelectionRects_diverges in Hrects by assumption; discriminate|].
  split; [assumption|]. split; [lia|].
  rewrite _GetSelectionRects_active in Hrects by assumption.
  destruct (selectionRows_loop _ _ _ _ _ _) as [area|] eqn:Hloop;
    [|discriminate].
  injection Hrects as <-.
  pose proof (rowCount_pos t) as Hpos.
  apply selectionRows_loop_inv in Hloop; [|lia|unfold rowCount in Hpos; lia].
  exact Hloop.
Qed.

(** On the row [SHORT_MAX] the loop does not leave: no fuel is enough. *)
Lemma _GetSelectionRects_last_row (fuel : nat) :
  _GetSelectionRects fuel Example.last_row = None.
Proof.
  apply _GetSelectionRects_diverges; [reflexivity| |reflexivity].
  split; vm_compute; split; discriminate.
Qed.

Lemma selectionRow_Top (t : Terminal) (h l : COORD.t) (row : Z) :
  SMALL_RECT.Top (selectionRow t h l row) = row.
Proof.
  unfold selectionRow, selectionRow_expand, selectionRow_shape.
  now destruct (_ || _).
Qed.

Lemma selectionRow_Bottom (t : Terminal) (h l : COORD.t) (row : Z) :
  SMALL_RECT.Bottom (selectionRow t h l row) = row.
Proof.
  unfold selectionRow, selectionRow_expand, selectionRow_shape.
  now destruct (_ || _).
Qed.

Lemma selectedRows_Top (t : Terminal) :
  SMALL_RECT.Top <$> selectedRows t = seqZ (COORD.Y (topCoord t)) (rowCount t).
Proof.
  unfold selectedRows. rewrite <- list_fmap_compose.
  rewrite <- (list_fmap_id (seqZ _ _)) at 2.
  apply list_fmap_ext. intros _ row _. apply selectionRow_Top.
Qed.

Lemma selectedRows_Bottom (t : Terminal) :
  SMALL_RECT.Bottom <$> selectedRows t
  = seqZ (COORD.Y (topCoord t)) (rowCount t).
Proof.
  unfold selectedRows. rewrite <- list_fmap_compose.
  rewrite <- (list_fmap_id (seqZ _ _)) at 2.
  apply list_fmap_ext. intros _ row _. apply selectionRow_Bottom.
Qed.

Lemma seqZ_one (m : Z) : seqZ m 1 = [m].
Proof. rewrite seqZ_cons by lia. now rewrite seqZ_nil by lia. Qed.

Lemma seqZ_StronglySorted (m n : Z) : StronglySorted Z.lt (seqZ m n).
Proof.
  destruct (Z.le_gt_cases n 0) as [Hn|Hn];
    [rewrite seqZ_nil by assumption; constructor|].
  rewrite <- (Z2Nat.id n) by lia. generalize (Z.to_nat n) as k. clear.
  intros k. revert m. induction k as [|k IH]; intros m.
  - rewrite seqZ_nil by lia. constructor.
  - rewrite seqZ_cons by lia. constructor.
    + replace (Z.pred (Z.of_nat (S k))) with (Z.of_nat k) by lia. apply IH.
    + apply Forall_seqZ. lia.
Qed.

(** The rows that the loop goes through, and whether it leaves, depend on
    the row of the lower end point only. *)
Lemma selectionRows_loop_rows
    (t1 t2 : Terminal) (h1 l1 h2 l2 : COORD.t) :
  COORD.Y l1 = COORD.Y l2 ->
  forall (fuel : nat) (row : Z) (acc1 acc2 : list SMALL_RECT.t),
    SMALL_RECT.Top <$> acc1 = SMALL_RECT.Top <$> acc2 ->
    match selectionRows_loop fuel t1 h1 l1 row acc1,
          selectionRows_loop fuel t2 h2 l2 row acc2 with
    | Some area1, Some area2 =>
        SMALL_RECT.Top <$> area1 = SMALL_RECT.Top <$> area2
    | None, None => True
    | _, _ => False
    end.
Proof.
  intros Hl fuel. induction fuel as [|fuel IH]; intros row acc1 acc2 Hacc; cbn;
    [exact I|].
  rewrite Hl. destruct (row <=? COORD.Y l2); [|exact Hacc].
  apply IH. now rewrite !fmap_app, !fmap_cons, !fmap_nil, !selectionRow_Top, Hacc.
Qed.

(** ** The properties of the specification *)

(** C1. Scroll independence of the recorded end points: the sequence of
    absolute rows that [_GetSelectionRects] gives for an active selection
    depends only on the two recorded end points, each resolved through the
    row offset frozen with it (the row of the coordinate plus the offset).
    Two terminals with an active selection and the same two resolved rows
    get the same sequence, whatever the live scroll offset, the viewport,
    the buffer and the selection shape of each are: a change of the scroll
    offset or of the top row of the viewport after the recording leaves the
    sequence as it was. *)
Theorem scroll_independence (fuel : nat) (t1 t2 : Terminal) :
  _selectionActive t1 = true ->
  _selectionActive t2 = true ->
  anchorAbsoluteRow t1 = anchorAbsoluteRow t2 ->
  endAbsoluteRow t1 = endAbsoluteRow t2 ->
  absoluteRows (_GetSelectionRects fuel t1)
  = absoluteRows (_GetSelectionRects fuel t2).
Proof.
  intros Ha1 Ha2 Hanchor Hend.
  unfold anchorAbsoluteRow, endAbsoluteRow in Hanchor, Hend.
  cbn in Hanchor, Hend.
  unfold _GetSelectionRects, ShortAdd. rewrite Ha1, Ha2, Hanchor, Hend.
  cbn.
  destruct (LongToShort (COORD.Y (_selectionAnchor t2) + _)) as [[] temp1];
    [|reflexivity].
  destruct (LongToShort (COORD.Y (_endSelectionPosition t2) + _))
    as [[] temp2]; [|reflexivity].
  destruct (temp1 <=? temp2), (temp1 >? temp2); cbn.
  all: match goal with
  | |- absoluteRows
         match selectionRows_loop _ _ ?h1 ?l1 ?row _ with _ => _ end
       = absoluteRows
           match selectionRows_loop _ _ ?h2 ?l2 _ _ with _ => _ end =>
      pose proof (selectionRows_loop_rows t1 t2 h1 l1 h2 l2 eq_refl
                    fuel row [] [] eq_refl) as Hrows
  end.
  all: cbn in Hrows.
  all:
  destruct (selectionRows_loop fuel t1 _ _ _ _),
           (selectionRows_loop fuel t2 _ _ _ _); cbn;
    solve [now rewrite Hrows | contradiction | reflexivity].
Qed.

(** The rows of the selection from (3, 1) to (2, 3) are 1, 2 and 3, and they
    stay so after the view has been scrolled back and the viewport has moved
    down the buffer. *)
Lemma scroll_independence_witness :
  absoluteRows (_GetSelectionRects 4 Example.three_rows) = Some (Ok [1; 2; 3])
  /\ absoluteRows (_GetSelectionRects 4 Example.three_rows_scrolled)
     = Some (Ok [1; 2; 3]).
Proof.
  split; [reflexivity|].
  rewrite <- (scroll_independence 4
                Example.three_rows Example.three_rows_scrolled);
    reflexivity.
Defined.

(** C2, as amended. For every active selection whose end points resolve to
    a [SHORT] and whose lower end point is on a row less than [SHORT_MAX],
    [_GetSelectionRects] returns, given the fuel for the loop, exactly one
    rectangle for each absolute row of the closed interval from the smaller
    to the larger of the two absolute rows, in ascending order, without gap
    and without duplicate. *)
Theorem rows_cover_interval (fuel : nat) (t : Terminal) :
  _selectionActive t = true ->
  resolves t ->
  Z.max (anchorAbsoluteRow t) (endAbsoluteRow t) < SHORT_MAX ->
  let first := Z.min (anchorAbsoluteRow t) (endAbsoluteRow t) in
  let last := Z.max (anchorAbsoluteRow t) (endAbsoluteRow t) in
  (Z.to_nat (last - first + 1) < fuel)%nat ->
  exists rects : list SMALL_RECT.t,
    _GetSelectionRects fuel t = Some (Ok rects)
    /\ SMALL_RECT.Top <$> rects = seqZ first (last - first + 1)
    /\ SMALL_RECT.Bottom <$> rects = seqZ first (last - first + 1)
    /\ (forall row : Z, row ∈ SMALL_RECT.Top <$> rects <-> first <= row <= last)
    /\ NoDup (SMALL_RECT.Top <$> rects)
    /\ StronglySorted Z.lt (SMALL_RECT.Top <$> rects)
    /\ length rects = Z.to_nat (last - first + 1).
Proof.
  intros Ha Hr Hmax first last Hfuel. subst first last.
  unfold anchorAbsoluteRow, endAbsoluteRow in *.
  rewrite <- topCoord_Y, <- bottomCoord_Y in *.
  fold (rowCount t) in *.
  exists (selectedRows t).
  split; [now apply _GetSelectionRects_returns|].
  rewrite selectedRows_Bottom, selectedRows_Top.
  do 2 (split; [reflexivity|]).
  split; [intros row; rewrite elem_of_seqZ; unfold rowCount; lia|].
  split; [apply NoDup_seqZ|].
  split; [apply seqZ_StronglySorted|].
  unfold selectedRows. now rewrite length_fmap, length_seqZ.
Qed.

(** The selection from (3, 1) to (2, 3) has the rows 1, 2 and 3. *)
Lemma rows_cover_interval_witness :
  _selectionActive Example.three_rows = true
  /\ anchorAbsoluteRow Example.three_rows = 1
  /\ endAbsoluteRow Example.three_rows = 3
  /\ exists rects : list SMALL_RECT.t,
       _GetSelectionRects 4 Example.three_rows = Some (Ok rects)
       /\ SMALL_RECT.Top <$> rects = [1; 2; 3].
Proof.
  do 3 (split; [reflexivity|]).
  destruct (rows_cover_interval 4 Example.three_rows)
    as (rects & Hrects & Htop & _).
  - reflexivity.
  - split; vm_compute; split; discriminate.
  - reflexivity.
  - vm_compute. lia.
  - exists rects. split; [exact Hrects|]. rewrite Htop. reflexivity.
Defined.

(** C2, as stated, fails: the selection begun on the row [SHORT_MAX] of a
    viewport whose first row is the row 1 of the buffer is active, and no
    rectangle is returned for it, however much fuel the loop is given: the
    sum of the row and its offset is not a [SHORT] and the member throws. *)
Lemma rows_cover_interval_counterexample :
  _selectionActive Example.unresolved = true
  /\ anchorAbsoluteRow Example.unresolved = 32768
  /\ endAbsoluteRow Example.unresolved = 32768
  /\ _GetSelectionRects 2 Example.unresolved = Some (Throw ArithmeticOverflow)
  /\ ~ exists (fuel : nat) (rects : list SMALL_RECT.t),
         _GetSelectionRects fuel Example.unresolved = Some (Ok rects).
Proof.
  do 4 (split; [reflexivity|]).
  intros (fuel & rects & Hrects).
  rewrite _GetSelectionRects_throws in Hrects; [discriminate|reflexivity|].
  intros [H _]. vm_compute in H. destruct H as [_ H]. now apply H.
Qed.

Lemma selectionRow_shape_Top (t : Terminal) (h l : COORD.t) (row : Z) :
  SMALL_RECT.Top (selectionRow_shape t h l row) = row.
Proof. unfold selectionRow_shape. now destruct (_ || _). Qed.

Lemma selectedRows_expand (t : Terminal) :
  selectedRows t = expandRow t <$> shapedRows t.
Proof.
  unfold selectedRows, shapedRows. rewrite <- list_fmap_compose.
  apply list_fmap_ext. intros _ row _. cbn.
  unfold expandRow. now rewrite selectionRow_shape_Top.
Qed.

(** C3. For every active selection in stream mode whose end points are on
    different absolute rows, the rectangles before the wide glyph expansion
    are: for the first row, from the column of the upper end point to the
    rightmost column of the buffer; for each row in between, from the
    column 0 to the rightmost column; for the last row, from the column 0 to
    the column of the lower end point. What [_GetSelectionRects] returns is
    the expansion of these rectangles, and it returns it, given the fuel for
    the loop, when the end points resolve and the lower one is on a
    row less than [SHORT_MAX]. *)
Theorem stream_rows_shape (t : Terminal) :
  _selectionActive t = true ->
  _boxSelection t = false ->
  anchorAbsoluteRow t <> endAbsoluteRow t ->
  let top := topCoord t in
  let bottom := bottomCoord t in
  let rightmost := Viewport.RightInclusive (TextBuffer.GetSize (_buffer t)) in
  shapedRows t
  = SMALL_RECT.mk (COORD.X top) (COORD.Y top) rightmost (COORD.Y top)
    :: ((fun row => SMALL_RECT.mk 0 row rightmost row)
          <$> seqZ (COORD.Y top + 1) (COORD.Y bottom - COORD.Y top - 1))
    ++ [SMALL_RECT.mk 0 (COORD.Y bottom) (COORD.X bottom) (COORD.Y bottom)]
  /\ (forall (fuel : nat) (rects : list SMALL_RECT.t),
        _GetSelectionRects fuel t = Some (Ok rects) ->
        rects = expandRow t <$> shapedRows t)
  /\ (resolves t ->
      COORD.Y bottom < SHORT_MAX ->
      forall fuel : nat,
        (Z.to_nat (rowCount t) < fuel)%nat ->
        _GetSelectionRects fuel t = Some (Ok (expandRow t <$> shapedRows t))).
Proof.
  intros Ha Hbox Hrows top bottom rightmost.
  assert (Hlt : COORD.Y top < COORD.Y bottom).
  { subst top bottom. rewrite topCoord_Y, bottomCoord_Y.
    unfold anchorAbsoluteRow, endAbsoluteRow in Hrows. lia. }
  split; [|split].
  - unfold shapedRows, rowCount. fold top bottom.
    replace (COORD.Y bottom - COORD.Y top + 1)
      with (1 + ((COORD.Y bottom - COORD.Y top - 1) + 1)) by lia.
    rewrite (seqZ_app _ 1), (seqZ_app _ _ 1), !seqZ_one by lia.
    rewrite !fmap_app, !fmap_cons, !fmap_nil. cbn [app].
    unfold selectionRow_shape at 1 3. rewrite Hbox. cbn [orb].
    destruct (Z.eqb_spec (COORD.Y top) (COORD.Y bottom)) as [|_]; [lia|].
    rewrite Z.eqb_refl.
    destruct (Z.eqb_spec (COORD.Y top) (COORD.Y bottom)) as [|_]; [lia|].
    replace (COORD.Y top + 1 + (COORD.Y bottom - COORD.Y top - 1))
      with (COORD.Y bottom) by lia.
    rewrite Z.eqb_refl.
    destruct (Z.eqb_spec (COORD.Y bottom) (COORD.Y top)) as [|_]; [lia|].
    f_equal. f_equal.
    apply list_fmap_ext. intros i row [-> Hi]%lookup_seqZ.
    unfold selectionRow_shape. rewrite Hbox. cbn [orb].
    destruct (Z.eqb_spec (COORD.Y top) (COORD.Y bottom)) as [|_]; [lia|].
    destruct (Z.eqb_spec (COORD.Y top + 1 + Z.of_nat i) (COORD.Y top))
      as [|_]; [lia|].
    destruct (Z.eqb_spec (COORD.Y top + 1 + Z.of_nat i) (COORD.Y bottom))
      as [|_]; [lia|].
    reflexivity.
  - intros fuel rects Hrects.
    apply _GetSelectionRects_inv in Hrects as (_ & _ & ->); [|assumption].
    apply selectedRows_expand.
  - intros Hr Hmax fuel Hfuel. rewrite <- selectedRows_expand.
    now apply _GetSelectionRects_returns.
Qed.

(** The selection from (3, 1) to (2, 3) on a buffer of ten columns, in
    stream mode: the rows (1, 3, 9), (2, 0, 9) and (3, 0, 2). *)
Lemma stream_rows_shape_witness :
  _selectionActive Example.three_rows = true
  /\ _boxSelection Example.three_rows = false
  /\ anchorAbsoluteRow Example.three_rows <> endAbsoluteRow Example.three_rows
  /\ shapedRows Example.three_rows
     = [SMALL_RECT.mk 3 1 9 1; SMALL_RECT.mk 0 2 9 2; SMALL_RECT.mk 0 3 2 3]
  /\ _GetSelectionRects 4 Example.three_rows
     = Some (Ok [SMALL_RECT.mk 3 1 9 1; SMALL_RECT.mk 0 2 9 2;
                 SMALL_RECT.mk 0 3 2 3]).
Proof.
  set (t := Example.three_rows).
  assert (Hrows : anchorAbsoluteRow t <> endAbsoluteRow t) by discriminate.
  destruct (stream_rows_shape t eq_refl eq_refl Hrows) as (Hshape & _ & Hret).
  do 2 (split; [reflexivity|]). split; [exact Hrows|].
  split; [rewrite Hshape; reflexivity|].
  rewrite (Hret ltac:(split; vm_compute; split; discriminate)
                ltac:(reflexivity) 4%nat ltac:(vm_compute; lia)).
  reflexivity.
Defined.

(** ** The wide glyph expansion *)

Lemma _ExpandWideGlyphSelection_Left_le (t : Terminal) (x y : Z) :
  expands_outwards t -> _ExpandWideGlyphSelection_Left t x y <= x.
Proof.
  intros Hout. specialize (Hout (COORD.mk x y)).
  unfold _ExpandWideGlyphSelection_Left.
  destruct (TextBuffer.GetCellDataAt _ _); cbn; try lia.
  destruct Hout as (pos' & -> & Hle). cbn in *. exact Hle.
Qed.

Lemma _ExpandWideGlyphSelection_Right_ge (t : Terminal) (x y : Z) :
  expands_outwards t -> x <= _ExpandWideGlyphSelection_Right t x y.
Proof.
  intros Hout. specialize (Hout (COORD.mk x y)).
  unfold _ExpandWideGlyphSelection_Right.
  destruct (TextBuffer.GetCellDataAt _ _); cbn; try lia.
  destruct Hout as (pos' & -> & Hle). cbn in *. exact Hle.
Qed.

Lemma topCoord_X (t : Terminal) :
  COORD.X (topCoord t) = COORD.X (_selectionAnchor t)
  \/ COORD.X (topCoord t) = COORD.X (_endSelectionPosition t).
Proof. unfold topCoord. destruct (_ <=? _); cbn; tauto. Qed.

Lemma bottomCoord_X (t : Terminal) :
  COORD.X (bottomCoord t) = COORD.X (_selectionAnchor t)
  \/ COORD.X (bottomCoord t) = COORD.X (_endSelectionPosition t).
Proof. unfold bottomCoord. destruct (_ >? _); cbn; tauto. Qed.

Lemma selectionRow_shape_le (t : Terminal) (row : Z) :
  (_boxSelection t = false -> columns_on_buffer t) ->
  SMALL_RECT.Left (selectionRow_shape t (topCoord t) (bottomCoord t) row)
  <= SMALL_RECT.Right (selectionRow_shape t (topCoord t) (bottomCoord t) row).
Proof.
  intros Hcols. unfold selectionRow_shape.
  destruct (_boxSelection t); cbn [orb]; [cbn; lia|].
  destruct (Z.eqb_spec (COORD.Y (topCoord t)) (COORD.Y (bottomCoord t)));
    [cbn; lia|].
  destruct (Hcols eq_refl) as [Hanchor Hend].
  pose proof (topCoord_X t). pose proof (bottomCoord_X t).
  destruct (Z.eqb_spec row (COORD.Y (topCoord t))),
           (Z.eqb_spec row (COORD.Y (bottomCoord t))); cbn; lia.
Qed.

(** C4, as amended. Every rectangle that [_GetSelectionRects] returns has
    its left column at most its right column, provided that in stream mode
    the columns of both end points are columns of the buffer and that each
    wide glyph expansion that applies succeeds in its first direction and
    moves outwards (the decrement off a trailing half does not enlarge the
    column, the increment off a leading half does not lessen it). *)
Theorem left_le_right
    (fuel : nat) (t : Terminal) (rects : list SMALL_RECT.t) :
  (_boxSelection t = false -> columns_on_buffer t) ->
  expands_outwards t ->
  _GetSelectionRects fuel t = Some (Ok rects) ->
  Forall (fun r => SMALL_RECT.Left r <= SMALL_RECT.Right r) rects.
Proof.
  intros Hcols Hout Hrects.
  destruct (_selectionActive t) eqn:Ha.
  - apply _GetSelectionRects_inv in Hrects as (_ & _ & ->); [|assumption].
    unfold selectedRows. apply Forall_fmap, Forall_forall. intros row _. cbn.
    pose proof (selectionRow_shape_le t row Hcols) as Hshape.
    pose proof (_ExpandWideGlyphSelection_Left_le t
      (SMALL_RECT.Left (selectionRow_shape t (topCoord t) (bottomCoord t) row))
      row Hout).
    pose proof (_ExpandWideGlyphSelection_Right_ge t
      (SMALL_RECT.Right (selectionRow_shape t (topCoord t) (bottomCoord t) row))
      row Hout).
    lia.
  - rewrite _GetSelectionRects_inactive in Hrects by assumption.
    injection Hrects as <-. constructor.
Qed.

(** The selection from (4, 1) to (3, 2) in stream mode, the columns 3 and 4
    of the row 2 holding a wide glyph: the right edge of the last row moves
    from the leading half to the trailing half. *)
Lemma left_le_right_witness :
  columns_on_buffer Example.across_glyph
  /\ expands_outwards Example.across_glyph
  /\ _GetSelectionRects 3 Example.across_glyph
     = Some (Ok [SMALL_RECT.mk 4 1 9 1; SMALL_RECT.mk 0 2 4 2])
  /\ Forall (fun r => SMALL_RECT.Left r <= SMALL_RECT.Right r)
       [SMALL_RECT.mk 4 1 9 1; SMALL_RECT.mk 0 2 4 2].
Proof.
  set (t := Example.across_glyph).
  assert (Hcols : columns_on_buffer t) by (vm_compute; intuition discriminate).
  assert (Hout : expands_outwards t).
  { intros [x y].
    change (_buffer t) with (Example.buffer Example.wide_cells).
    change (_mutableViewport t) with (Clamped.viewport 0 9).
    cbn. unfold Example.wide_cells. cbn.
    destruct (Z.eqb_spec x 3) as [Hx3|]; destruct (Z.eqb_spec x 4) as [Hx4|];
      destruct (Z.eqb_spec y 2) as [Hy|]; cbn; try exact I; try (exfalso; lia).
    - subst x y. exists (COORD.mk 4 2). split; [reflexivity|cbn; lia].
    - subst x y. exists (COORD.mk 3 2). split; [reflexivity|cbn; lia]. }
  do 3 (split; [first [exact Hcols | exact Hout | reflexivity]|]).
  exact (left_le_right 3 t _ (fun _ => Hcols) Hout eq_refl).
Defined.

(** C4, as stated, fails: with a trailing half in the first cell of the
    viewport, the selection of that one cell comes out with the left column
    1 and the right column 0. The decrement off the trailing half fails, so
    the left edge moves forward; the right edge is not on a leading half and
    stays. *)
Lemma left_le_right_counterexample :
  _GetSelectionRects 2 Example.at_origin = Some (Ok [SMALL_RECT.mk 1 0 0 0])
  /\ ~ Forall (fun r => SMALL_RECT.Left r <= SMALL_RECT.Right r)
         [SMALL_RECT.mk 1 0 0 0].
Proof.
  split; [reflexivity|].
  intros H. apply Forall_cons in H as [H _]. cbn in H. lia.
Qed.

Lemma _ExpandWideGlyphSelection_Left_narrow (t : Terminal) (x y : Z) :
  DbcsAttribute.IsTrailing
    (TextBuffer.GetCellDataAt (_buffer t) (COORD.mk x y)) = false ->
  _ExpandWideGlyphSelection_Left t x y = x.
Proof. intros H. unfold _ExpandWideGlyphSelection_Left. now rewrite H. Qed.

Lemma _ExpandWideGlyphSelection_Right_narrow (t : Terminal) (x y : Z) :
  DbcsAttribute.IsLeading
    (TextBuffer.GetCellDataAt (_buffer t) (COORD.mk x y)) = false ->
  _ExpandWideGlyphSelection_Right t x y = x.
Proof. intros H. unfold _ExpandWideGlyphSelection_Right. now rewrite H. Qed.

(** C5, as amended. For every active selection whose anchor and end resolve
    to the same absolute row, a row less than [SHORT_MAX],
    [_GetSelectionRects]
    returns the same single rectangle whether box mode is on or off: its
    left column is the wide glyph expansion of the smaller of the two
    columns and its right column the expansion of the larger; they are the
    smaller and the larger column themselves when the cell at the smaller
    is not a trailing half and the cell at the larger is not a leading
    half. *)
Theorem single_row_box_stream
    (fuel : nat) (t : Terminal) (isEnabled : bool) :
  _selectionActive t = true ->
  resolves t ->
  anchorAbsoluteRow t = endAbsoluteRow t ->
  anchorAbsoluteRow t < SHORT_MAX ->
  (1 < fuel)%nat ->
  let row := anchorAbsoluteRow t in
  let left :=
    Z.min (COORD.X (_selectionAnchor t)) (COORD.X (_endSelectionPosition t)) in
  let right :=
    Z.max (COORD.X (_selectionAnchor t)) (COORD.X (_endSelectionPosition t)) in
  _GetSelectionRects fuel (SetBoxSelection isEnabled t)
  = Some (Ok [SMALL_RECT.mk
                (_ExpandWideGlyphSelection_Left t left row) row
                (_ExpandWideGlyphSelection_Right t right row) row])
  /\ (DbcsAttribute.IsTrailing
        (TextBuffer.GetCellDataAt (_buffer t) (COORD.mk left row)) = false ->
      DbcsAttribute.IsLeading
        (TextBuffer.GetCellDataAt (_buffer t) (COORD.mk right row)) = false ->
      _GetSelectionRects fuel (SetBoxSelection isEnabled t)
      = Some (Ok [SMALL_RECT.mk left row right row])).
Proof.
  intros Ha Hr Hsame Hmax Hfuel row left right.
  set (t' := SetBoxSelection isEnabled t).
  assert (Htop : topCoord t' = anchorAbsolute t).
  { unfold topCoord. change (anchorAbsolute t') with (anchorAbsolute t).
    change (endAbsolute t') with (endAbsolute t).
    unfold anchorAbsoluteRow, endAbsoluteRow in Hsame. rewrite Hsame.
    now rewrite Z.leb_refl. }
  assert (Hbottom : bottomCoord t' = endAbsolute t).
  { unfold bottomCoord. change (anchorAbsolute t') with (anchorAbsolute t).
    change (endAbsolute t') with (endAbsolute t).
    unfold anchorAbsoluteRow, endAbsoluteRow in Hsame. rewrite Hsame.
    rewrite Z.gtb_ltb. now rewrite Z.ltb_irrefl. }
  assert (Hcount : rowCount t' = 1).
  { unfold rowCount. rewrite Htop, Hbottom.
    unfold anchorAbsoluteRow, endAbsoluteRow in Hsame. lia. }
  assert (Hret : _GetSelectionRects fuel t'
    = Some (Ok [SMALL_RECT.mk
                  (_ExpandWideGlyphSelection_Left t left row) row
                  (_ExpandWideGlyphSelection_Right t right row) row])).
  { rewrite _GetSelectionRects_returns;
      [|exact Ha|exact Hr
       |rewrite Hbottom; unfold anchorAbsoluteRow, endAbsoluteRow in *; lia
       |rewrite Hcount; lia].
    unfold selectedRows. rewrite Hcount, seqZ_one, Htop, Hbottom.
    unfold selectionRow, selectionRow_shape.
    unfold anchorAbsoluteRow, endAbsoluteRow in Hsame. rewrite <- Hsame.
    now rewrite Z.eqb_refl, orb_true_r. }
  split; [exact Hret|].
  intros Htrail Hlead. rewrite Hret.
  now rewrite _ExpandWideGlyphSelection_Left_narrow,
    _ExpandWideGlyphSelection_Right_narrow.
Qed.

(** The selection from (5, 2) back to (1, 2), all cells narrow: the columns
    1 to 5 of the row 2, in stream mode and in box mode. *)
Lemma single_row_box_stream_witness :
  _selectionActive Example.one_row = true
  /\ resolves Example.one_row
  /\ anchorAbsoluteRow Example.one_row = endAbsoluteRow Example.one_row
  /\ _GetSelectionRects 2 (SetBoxSelection false Example.one_row)
     = Some (Ok [SMALL_RECT.mk 1 2 5 2])
  /\ _GetSelectionRects 2 (SetBoxSelection true Example.one_row)
     = Some (Ok [SMALL_RECT.mk 1 2 5 2]).
Proof.
  assert (Hr : resolves Example.one_row)
    by (split; vm_compute; split; discriminate).
  assert (Hmax : anchorAbsoluteRow Example.one_row < SHORT_MAX)
    by reflexivity.
  assert (Hfuel : (1 < 2)%nat) by lia.
  split; [reflexivity|]. split; [exact Hr|]. split; [reflexivity|].
  split.
  - exact (proj2 (single_row_box_stream 2 Example.one_row false
                    eq_refl Hr eq_refl Hmax Hfuel) eq_refl eq_refl).
  - exact (proj2 (single_row_box_stream 2 Example.one_row true
                    eq_refl Hr eq_refl Hmax Hfuel) eq_refl eq_refl).
Defined.

(** C5, as stated, fails: the selection of the trailing half of a wide glyph
    alone, in the column 4, is on one row, and its rectangle begins in the
    column 3, not in the smaller of the two columns of the end points. *)
Lemma single_row_box_stream_counterexample :
  _selectionActive Example.on_trailing = true
  /\ anchorAbsoluteRow Example.on_trailing
     = endAbsoluteRow Example.on_trailing
  /\ Z.min (COORD.X (_selectionAnchor Example.on_trailing))
           (COORD.X (_endSelectionPosition Example.on_trailing)) = 4
  /\ _GetSelectionRects 2 (SetBoxSelection false Example.on_trailing)
     = Some (Ok [SMALL_RECT.mk 3 2 4 2])
  /\ _GetSelectionRects 2 (SetBoxSelection true Example.on_trailing)
     = Some (Ok [SMALL_RECT.mk 3 2 4 2])
  /\ SMALL_RECT.mk 3 2 4 2 <> SMALL_RECT.mk 4 2 4 2.
Proof. do 4 (split; [reflexivity|]). split; [reflexivity|discriminate]. Qed.

(** C6. The wide glyph expansion of an edge is a case split on the cell at
    the edge. Left edge: a cell that is not a trailing half leaves the
    column as it is; on a trailing half the column becomes the one the
    decrement of the viewport moves to when the decrement succeeds, and the
    one the increment of the viewport moves to when the decrement fails.
    Right edge, symmetrically: a cell that is not a leading half leaves the
    column as it is; on a leading half the column becomes the one the
    increment moves to when it succeeds, and the one the decrement moves to
    when the increment fails. *)
Theorem wide_glyph_case_split (t : Terminal) (x y : Z) :
  let position := COORD.mk x y in
  let attr := TextBuffer.GetCellDataAt (_buffer t) position in
  let decrement := Viewport.DecrementInBounds (_mutableViewport t) in
  let increment := Viewport.IncrementInBounds (_mutableViewport t) in
  (DbcsAttribute.IsTrailing attr = false ->
   _ExpandWideGlyphSelection_Left t x y = x)
  /\ (DbcsAttribute.IsTrailing attr = true ->
      forall moved : COORD.t,
        decrement position = (true, moved) ->
        _ExpandWideGlyphSelection_Left t x y = COORD.X moved)
  /\ (DbcsAttribute.IsTrailing attr = true ->
      forall unmoved : COORD.t,
        decrement position = (false, unmoved) ->
        _ExpandWideGlyphSelection_Left t x y
        = COORD.X (snd (increment unmoved)))
  /\ (DbcsAttribute.IsLeading attr = false ->
      _ExpandWideGlyphSelection_Right t x y = x)
  /\ (DbcsAttribute.IsLeading attr = true ->
      forall moved : COORD.t,
        increment position = (true, moved) ->
        _ExpandWideGlyphSelection_Right t x y = COORD.X moved)
  /\ (DbcsAttribute.IsLeading attr = true ->
      forall unmoved : COORD.t,
        increment position = (false, unmoved) ->
        _ExpandWideGlyphSelection_Right t x y
        = COORD.X (snd (decrement unmoved))).
Proof.
  intros position attr decrement increment.
  unfold _ExpandWideGlyphSelection_Left, _ExpandWideGlyphSelection_Right.
  fold position. fold attr. fold decrement. fold increment.
  repeat split.
  - now intros ->.
  - intros -> moved ->. reflexivity.
  - intros -> unmoved ->. reflexivity.
  - now intros ->.
  - intros -> moved ->. reflexivity.
  - intros -> unmoved ->. reflexivity.
Qed.

(** On the viewport of the columns 0 to 9: off the trailing half in the
    column 4 the left edge moves back to 3; off a trailing half in the
    column 0 it moves forward to 1; off the leading half in the column 3 the
    right edge moves forward to 4; off a leading half in the column 9 it
    moves back to 8; on a narrow cell both stay. *)
Lemma wide_glyph_case_split_witness :
  _ExpandWideGlyphSelection_Left Example.on_trailing 4 2 = 3
  /\ _ExpandWideGlyphSelection_Left Example.at_origin 0 0 = 1
  /\ _ExpandWideGlyphSelection_Left Example.on_trailing 5 2 = 5
  /\ _ExpandWideGlyphSelection_Right Example.on_trailing 3 2 = 4
  /\ _ExpandWideGlyphSelection_Right (Example.idle Example.edge_cells) 9 0 = 8
  /\ _ExpandWideGlyphSelection_Right Example.on_trailing 4 2 = 4.
Proof.
  split; [|split; [|split; [|split; [|split]]]].
  - exact (proj1 (proj2 (wide_glyph_case_split Example.on_trailing 4 2))
             eq_refl (COORD.mk 3 2) eq_refl).
  - exact (proj1 (proj2 (proj2 (wide_glyph_case_split Example.at_origin 0 0)))
             eq_refl (COORD.mk 0 0) eq_refl).
  - exact (proj1 (wide_glyph_case_split Example.on_trailing 5 2) eq_refl).
  - exact (proj1 (proj2 (proj2 (proj2 (proj2
             (wide_glyph_case_split Example.on_trailing 3 2)))))
             eq_refl (COORD.mk 4 2) eq_refl).
  - exact (proj2 (proj2 (proj2 (proj2 (proj2
             (wide_glyph_case_split (Example.idle Example.edge_cells) 9 0)))))
             eq_refl (COORD.mk 9 0) eq_refl).
  - exact (proj1 (proj2 (proj2 (proj2
             (wide_glyph_case_split Example.on_trailing 4 2)))) eq_refl).
Defined.

(** ** Recording the end points *)

Section Recording.
Variable t : Terminal.
Variable position : COORD.t.

Lemma SetEndSelectionPosition_narrowing :
  ~ in_short (_scrollOffset t) ->
  SetEndSelectionPosition position t
  = (Set_.endSelectionPosition position t, Throw NarrowingError).
Proof.
  intros Hso. run_member. now rewrite (narrow_SHORT_throws _ Hso).
Qed.

Lemma SetEndSelectionPosition_overflow :
  in_short (_scrollOffset t) ->
  ~ in_short (COORD.Y position - _scrollOffset t) ->
  SetEndSelectionPosition position t
  = (Set_.endSelectionPosition (failedPosition position) t, Throw ArithmeticOverflow).
Proof.
  intros Hso Hsub. run_member. rewrite (narrow_SHORT_ok _ Hso).
  now rewrite (LongToShort_overflow _ Hsub).
Qed.

Lemma SetEndSelectionPosition_view_narrowing :
  in_short (_scrollOffset t) ->
  in_short (COORD.Y position - _scrollOffset t) ->
  ~ in_short (_ViewStartIndex t) ->
  SetEndSelectionPosition position t
  = (Set_.endSelectionPosition (adjustedPosition t position) t, Throw NarrowingError).
Proof.
  intros Hso Hsub Hview. run_member. rewrite (narrow_SHORT_ok _ Hso).
  rewrite (LongToShort_ok _ Hsub). cbn. view_start t.
  now rewrite (narrow_SHORT_throws _ Hview).
Qed.

Lemma SetEndSelectionPosition_ok :
  in_short (_scrollOffset t) ->
  in_short (COORD.Y position - _scrollOffset t) ->
  in_short (_ViewStartIndex t) ->
  SetEndSelectionPosition position t
  = (Set_.endSelectionPosition_YOffset (_ViewStartIndex t)
       (Set_.endSelectionPosition (adjustedPosition t position) t), Ok tt).
Proof.
  intros Hso Hsub Hview. run_member. rewrite (narrow_SHORT_ok _ Hso).
  rewrite (LongToShort_ok _ Hsub). cbn. view_start t.
  now rewrite (narrow_SHORT_ok _ Hview).
Qed.

Lemma SetSelectionAnchor_narrowing :
  ~ in_short (_scrollOffset t) ->
  SetSelectionAnchor position t
  = (Set_.selectionAnchor position t, Throw NarrowingError).
Proof.
  intros Hso. run_member. now rewrite (narrow_SHORT_throws _ Hso).
Qed.

Lemma SetSelectionAnchor_overflow :
  in_short (_scrollOffset t) ->
  ~ in_short (COORD.Y position - _scrollOffset t) ->
  SetSelectionAnchor position t
  = (Set_.selectionAnchor (failedPosition position) t, Throw ArithmeticOverflow).
Proof.
  intros Hso Hsub. run_member. rewrite (narrow_SHORT_ok _ Hso).
  now rewrite (LongToShort_overflow _ Hsub).
Qed.

Lemma SetSelectionAnchor_view_narrowing :
  in_short (_scrollOffset t) ->
  in_short (COORD.Y position - _scrollOffset t) ->
  ~ in_short (_ViewStartIndex t) ->
  SetSelectionAnchor position t
  = (Set_.selectionAnchor (adjustedPosition t position) t, Throw NarrowingError).
Proof.
  intros Hso Hsub Hview. run_member. rewrite (narrow_SHORT_ok _ Hso).
  rewrite (LongToShort_ok _ Hsub). cbn. view_start t.
  now rewrite (narrow_SHORT_throws _ Hview).
Qed.

Lemma SetSelectionAnchor_ok :
  in_short (_scrollOffset t) ->
  in_short (COORD.Y position - _scrollOffset t) ->
  in_short (_ViewStartIndex t) ->
  SetSelectionAnchor position t
  = (Set_.endSelectionPosition_YOffset (_ViewStartIndex t)
       (Set_.endSelectionPosition (adjustedPosition t position)
          (Set_.selectionActive true
             (Set_.selectionAnchor_YOffset (_ViewStartIndex t)
                (Set_.selectionAnchor (adjustedPosition t position) t)))), Ok tt).
Proof.
  intros Hso Hsub Hview. run_member. rewrite (narrow_SHORT_ok _ Hso).
  rewrite (LongToShort_ok _ Hsub). cbn. view_start t.
  rewrite (narrow_SHORT_ok _ Hview). cbn.
  rewrite (narrow_SHORT_ok _ Hso). rewrite (LongToShort_ok _ Hsub). cbn.
  view_start t.
  now rewrite (narrow_SHORT_ok _ Hview).
Qed.
End Recording.

(** C7, as amended. A call of [SetSelectionAnchor] or of
    [SetEndSelectionPosition] for which the row of the position less the
    scroll offset is not a [SHORT] fails, and the failure reaches the
    caller: it is the arithmetic overflow when the scroll offset itself is a
    [SHORT], and the narrowing error, raised before the subtraction, when it
    is not. The row is never wrapped: whenever a call succeeds, the row it
    has recorded is the row of the position less the scroll offset. *)
Theorem overflow_is_thrown (t : Terminal) (position : COORD.t) :
  (~ in_short (COORD.Y position - _scrollOffset t) ->
   (in_short (_scrollOffset t) ->
    snd (SetSelectionAnchor position t) = Throw ArithmeticOverflow
    /\ snd (SetEndSelectionPosition position t) = Throw ArithmeticOverflow)
   /\ (~ in_short (_scrollOffset t) ->
       snd (SetSelectionAnchor position t) = Throw NarrowingError
       /\ snd (SetEndSelectionPosition position t) = Throw NarrowingError))
  /\ (snd (SetSelectionAnchor position t) = Ok tt ->
      in_short (COORD.Y position - _scrollOffset t)
      /\ COORD.Y (_selectionAnchor (fst (SetSelectionAnchor position t)))
         = COORD.Y position - _scrollOffset t)
  /\ (snd (SetEndSelectionPosition position t) = Ok tt ->
      in_short (COORD.Y position - _scrollOffset t)
      /\ COORD.Y (_endSelectionPosition
                    (fst (SetEndSelectionPosition position t)))
         = COORD.Y position - _scrollOffset t).
Proof.
  split; [|split].
  - intros Hsub. split; intros Hso.
    + now rewrite SetSelectionAnchor_overflow,
        SetEndSelectionPosition_overflow.
    + now rewrite SetSelectionAnchor_narrowing,
        SetEndSelectionPosition_narrowing.
  - destruct (in_short_dec (_scrollOffset t)) as [Hso|Hso];
      [|now rewrite SetSelectionAnchor_narrowing].
    destruct (in_short_dec (COORD.Y position - _scrollOffset t))
      as [Hsub|Hsub]; [|now rewrite SetSelectionAnchor_overflow].
    destruct (in_short_dec (_ViewStartIndex t)) as [Hview|Hview];
      [|now rewrite SetSelectionAnchor_view_narrowing].
    rewrite SetSelectionAnchor_ok by assumption. now split.
  - destruct (in_short_dec (_scrollOffset t)) as [Hso|Hso];
      [|now rewrite SetEndSelectionPosition_narrowing].
    destruct (in_short_dec (COORD.Y position - _scrollOffset t))
      as [Hsub|Hsub]; [|now rewrite SetEndSelectionPosition_overflow].
    destruct (in_short_dec (_ViewStartIndex t)) as [Hview|Hview];
      [|now rewrite SetEndSelectionPosition_view_narrowing].
    rewrite SetEndSelectionPosition_ok by assumption. now split.
Qed.

(** Two rows above the viewport of a terminal scrolled back by [SHORT_MAX]
    rows: the subtraction underflows and both members throw the arithmetic
    overflow. On a terminal that is not scrolled the row 3 is recorded as
    it is. *)
Lemma overflow_is_thrown_witness :
  ~ in_short (COORD.Y (COORD.mk 0 (-2)) - _scrollOffset Example.deep_scrolled)
  /\ in_short (_scrollOffset Example.deep_scrolled)
  /\ snd (SetSelectionAnchor (COORD.mk 0 (-2)) Example.deep_scrolled)
     = Throw ArithmeticOverflow
  /\ snd (SetEndSelectionPosition (COORD.mk 0 (-2)) Example.deep_scrolled)
     = Throw ArithmeticOverflow
  /\ COORD.Y (_endSelectionPosition Example.three_rows) = 3.
Proof.
  assert (Hsub : ~ in_short (COORD.Y (COORD.mk 0 (-2))
                             - _scrollOffset Example.deep_scrolled))
    by (vm_compute; intros [H _]; now apply H).
  assert (Hso : in_short (_scrollOffset Example.deep_scrolled))
    by (vm_compute; split; discriminate).
  split; [exact Hsub|]. split; [exact Hso|].
  destruct (overflow_is_thrown Example.deep_scrolled (COORD.mk 0 (-2)))
    as (Hthrown & _ & _).
  destruct (Hthrown Hsub) as ((Hanchor & Hend) & _); [exact Hso|].
  split; [exact Hanchor|]. split; [exact Hend|].
  reflexivity.
Defined.

(** C7, as stated, fails: on a terminal whose scroll offset is 40000 the
    subtraction from the row 0 underflows, and both members fail with the
    narrowing error of the conversion of the scroll offset, not with the
    arithmetic overflow. *)
Lemma overflow_is_thrown_counterexample :
  ~ in_short (COORD.Y (COORD.mk 0 0) - _scrollOffset Example.far_scrolled)
  /\ snd (SetSelectionAnchor (COORD.mk 0 0) Example.far_scrolled)
     = Throw NarrowingError
  /\ snd (SetEndSelectionPosition (COORD.mk 0 0) Example.far_scrolled)
     = Throw NarrowingError
  /\ snd (SetSelectionAnchor (COORD.mk 0 0) Example.far_scrolled)
     <> Throw ArithmeticOverflow
  /\ snd (SetEndSelectionPosition (COORD.mk 0 0) Example.far_scrolled)
     <> Throw ArithmeticOverflow.
Proof.
  split; [vm_compute; intros [H _]; now apply H|].
  do 2 (split; [reflexivity|]). split; discriminate.
Qed.

(** ** The queries *)

(** C8, as amended. [SetBoxSelection], [ClearSelection] and
    [IsSelectionActive] cannot fail. On an inactive selection
    [_GetSelectionRects] returns no rectangle, and
    [RetrieveSelectedTextFromBuffer] the empty string when the buffer gives
    no fragment for no rectangle. On an active selection both throw the
    arithmetic overflow when an end point does not resolve to a [SHORT];
    when the end points resolve and the lower one is on a row less than
    [SHORT_MAX] both return, given the fuel for the loop: the rectangles of
    the selected rows, and the fragments of the buffer for these rectangles,
    concatenated. *)
Theorem queries_outcome
    (fuel : nat) (trimTrailingWhitespace : bool) (t : Terminal) :
  (_selectionActive t = false ->
   _GetSelectionRects fuel t = Some (Ok [])
   /\ (TextBuffer.GetTextForClipboard (_buffer t) (negb (_boxSelection t))
         trimTrailingWhitespace [] = [] ->
       RetrieveSelectedTextFromBuffer fuel trimTrailingWhitespace t
       = Some (Ok EmptyString)))
  /\ (_selectionActive t = true ->
      ~ resolves t ->
      _GetSelectionRects fuel t = Some (Throw ArithmeticOverflow)
      /\ RetrieveSelectedTextFromBuffer fuel trimTrailingWhitespace t
         = Some (Throw ArithmeticOverflow))
  /\ (_selectionActive t = true ->
      resolves t ->
      COORD.Y (bottomCoord t) < SHORT_MAX ->
      (Z.to_nat (rowCount t) < fuel)%nat ->
      _GetSelectionRects fuel t = Some (Ok (selectedRows t))
      /\ RetrieveSelectedTextFromBuffer fuel trimTrailingWhitespace t
         = Some (Ok (concat_text
                       (TextBuffer.GetTextForClipboard (_buffer t)
                          (negb (_boxSelection t)) trimTrailingWhitespace
                          (selectedRows t)))))
  /\ (forall isEnabled : bool,
        IsSelectionActive (SetBoxSelection isEnabled t) = IsSelectionActive t
        /\ _boxSelection (SetBoxSelection isEnabled t) = isEnabled)
  /\ IsSelectionActive (ClearSelection t) = false.
Proof.
  split; [|split; [|split; [|split]]].
  - intros Ha. unfold RetrieveSelectedTextFromBuffer.
    rewrite _GetSelectionRects_inactive by assumption.
    split; [reflexivity|]. now intros ->.
  - intros Ha Hr. unfold RetrieveSelectedTextFromBuffer.
    now rewrite _GetSelectionRects_throws by assumption.
  - intros Ha Hr Hmax Hfuel. unfold RetrieveSelectedTextFromBuffer.
    now rewrite _GetSelectionRects_returns by assumption.
  - intros isEnabled. split; reflexivity.
  - reflexivity.
Qed.

(** Without a selection the rectangles and the text are empty; the text of
    the three rows from (3, 1) to (2, 3) is the three fragments of the
    buffer, one after the other. *)
Lemma queries_outcome_witness :
  _selectionActive (Example.idle Example.narrow_cells) = false
  /\ _GetSelectionRects 1 (Example.idle Example.narrow_cells) = Some (Ok [])
  /\ RetrieveSelectedTextFromBuffer 1 true (Example.idle Example.narrow_cells)
     = Some (Ok EmptyString)
  /\ RetrieveSelectedTextFromBuffer 4 true Example.three_rows
     = Some (Ok "..."%string).
Proof.
  destruct (queries_outcome 1 true (Example.idle Example.narrow_cells))
    as (Hidle & _).
  destruct (Hidle eq_refl) as (Hrects & Htext).
  split; [reflexivity|]. split; [exact Hrects|].
  split; [exact (Htext eq_refl)|].
  destruct (queries_outcome 4 true Example.three_rows)
    as (_ & _ & Hactive & _).
  destruct Hactive as (_ & Htext3);
    [reflexivity|split; vm_compute; split; discriminate|reflexivity
    |vm_compute; lia|].
  rewrite Htext3. reflexivity.
Defined.

(** C8, as stated, fails: the queries are not total. For the selection begun
    on the row [SHORT_MAX] of a viewport whose first row is the row 1 of the
    buffer both queries throw the arithmetic overflow. *)
Lemma queries_outcome_counterexample :
  IsSelectionActive Example.unresolved = true
  /\ _GetSelectionRects 2 Example.unresolved = Some (Throw ArithmeticOverflow)
  /\ RetrieveSelectedTextFromBuffer 2 true Example.unresolved
     = Some (Throw ArithmeticOverflow).
Proof. repeat split. Qed.

(** ** Clearing and extending *)

(** C9. [ClearSelection] makes the selection inactive and sets the anchor,
    the end and both row offsets to zero; it leaves the box mode (and the
    scroll offset, the viewport and the buffer) as they are; clearing twice
    gives the same terminal as clearing once. *)
Theorem ClearSelection_effect (t : Terminal) :
  _selectionActive (ClearSelection t) = false
  /\ _selectionAnchor (ClearSelection t) = COORD.mk 0 0
  /\ _selectionAnchor_YOffset (ClearSelection t) = 0
  /\ _endSelectionPosition (ClearSelection t) = COORD.mk 0 0
  /\ _endSelectionPosition_YOffset (ClearSelection t) = 0
  /\ _boxSelection (ClearSelection t) = _boxSelection t
  /\ _scrollOffset (ClearSelection t) = _scrollOffset t
  /\ _mutableViewport (ClearSelection t) = _mutableViewport t
  /\ _buffer (ClearSelection t) = _buffer t
  /\ ClearSelection (ClearSelection t) = ClearSelection t.
Proof. repeat split. Qed.

(** C10. [SetEndSelectionPosition] on a terminal without an active selection
    does what it does on one with an active selection: the same outcome and
    the same writes, the selection staying inactive; when the scroll offset,
    the adjusted row and the top row of the viewport are [SHORT]s it
    succeeds and records the adjusted end and the row offset. In either
    case [_GetSelectionRects] then still returns no rectangle. *)
Theorem extend_when_inactive
    (fuel : nat) (t : Terminal) (position : COORD.t) :
  _selectionActive t = false ->
  _selectionActive (fst (SetEndSelectionPosition position t)) = false
  /\ _GetSelectionRects fuel (fst (SetEndSelectionPosition position t))
     = Some (Ok [])
  /\ SetEndSelectionPosition position (Set_.selectionActive true t)
     = (Set_.selectionActive true (fst (SetEndSelectionPosition position t)),
        snd (SetEndSelectionPosition position t))
  /\ (in_short (_scrollOffset t) ->
      in_short (COORD.Y position - _scrollOffset t) ->
      in_short (_ViewStartIndex t) ->
      snd (SetEndSelectionPosition position t) = Ok tt
      /\ _endSelectionPosition (fst (SetEndSelectionPosition position t))
         = COORD.mk (COORD.X position) (COORD.Y position - _scrollOffset t)
      /\ _endSelectionPosition_YOffset
           (fst (SetEndSelectionPosition position t))
         = _ViewStartIndex t).
Proof.
  intros Ha.
  assert (Hframe : forall active : bool,
    SetEndSelectionPosition position (Set_.selectionActive active t)
    = (Set_.selectionActive active (fst (SetEndSelectionPosition position t)),
       snd (SetEndSelectionPosition position t))).
  { intros active.
    destruct (in_short_dec (_scrollOffset t)) as [Hso|Hso];
      [|now rewrite !SetEndSelectionPosition_narrowing].
    destruct (in_short_dec (COORD.Y position - _scrollOffset t))
      as [Hsub|Hsub]; [|now rewrite !SetEndSelectionPosition_overflow].
    destruct (in_short_dec (_ViewStartIndex t)) as [Hview|Hview];
      [|now rewrite !SetEndSelectionPosition_view_narrowing].
    now rewrite !SetEndSelectionPosition_ok. }
  assert (Hinactive :
    _selectionActive (fst (SetEndSelectionPosition position t)) = false).
  { pose proof (Hframe false) as Hf.
    replace (Set_.selectionActive false t) with t in Hf
      by (destruct t; cbn in Ha; now subst).
    now rewrite Hf at 1. }
  split; [exact Hinactive|].
  split; [now apply _GetSelectionRects_inactive|].
  split; [apply Hframe|].
  intros Hso Hsub Hview. now rewrite SetEndSelectionPosition_ok.
Qed.

(** Extending to (2, 3) without having begun: the end is recorded, the
    selection stays inactive and no rectangle is returned. *)
Lemma extend_when_inactive_witness :
  _selectionActive (Example.idle Example.narrow_cells) = false
  /\ snd (SetEndSelectionPosition (COORD.mk 2 3)
            (Example.idle Example.narrow_cells)) = Ok tt
  /\ _endSelectionPosition
       (fst (SetEndSelectionPosition (COORD.mk 2 3)
               (Example.idle Example.narrow_cells))) = COORD.mk 2 3
  /\ _selectionActive
       (fst (SetEndSelectionPosition (COORD.mk 2 3)
               (Example.idle Example.narrow_cells))) = false
  /\ _GetSelectionRects 4
       (fst (SetEndSelectionPosition (COORD.mk 2 3)
               (Example.idle Example.narrow_cells))) = Some (Ok []).
Proof.
  destruct (extend_when_inactive 4 (Example.idle Example.narrow_cells)
              (COORD.mk 2 3) eq_refl) as (Hinactive & Hrects & _ & Hok).
  destruct Hok as (Hres & Hend & _);
    try (vm_compute; split; discriminate).
  split; [reflexivity|]. split; [exact Hres|]. split; [exact Hend|].
  split; [exact Hinactive|exact Hrects].
Defined.


(** ** Further properties of the members *)

(** The loop reads its two end points through the row of the lower one and
    through the rectangle of each row only. *)
Lemma selectionRows_loop_ext
    (t1 t2 : Terminal) (h1 l1 h2 l2 : COORD.t) :
  COORD.Y l1 = COORD.Y l2 ->
  (forall row : Z, selectionRow t1 h1 l1 row = selectionRow t2 h2 l2 row) ->
  forall (fuel : nat) (row : Z) (acc : list SMALL_RECT.t),
    selectionRows_loop fuel t1 h1 l1 row acc
    = selectionRows_loop fuel t2 h2 l2 row acc.
Proof.
  intros Hl Hrow fuel. induction fuel as [|fuel IH]; intros row acc; cbn;
    [reflexivity|].
  now rewrite Hl, Hrow, IH.
Qed.

Lemma top_bottom_columns (t : Terminal) :
  Z.min (COORD.X (topCoord t)) (COORD.X (bottomCoord t))
  = Z.min (COORD.X (_selectionAnchor t)) (COORD.X (_endSelectionPosition t))
  /\ Z.max (COORD.X (topCoord t)) (COORD.X (bottomCoord t))
     = Z.max (COORD.X (_selectionAnchor t))
             (COORD.X (_endSelectionPosition t)).
Proof.
  unfold topCoord, bottomCoord. rewrite Z.gtb_ltb.
  destruct (Z.leb_spec (COORD.Y (anchorAbsolute t)) (COORD.Y (endAbsolute t))),
           (Z.ltb_spec (COORD.Y (endAbsolute t)) (COORD.Y (anchorAbsolute t)));
    cbn; lia.
Qed.

(** X1. Neither the rectangles nor the text of the selection depend on the
    direction of the drag: with the anchor and the end exchanged (each with
    its row offset) [_GetSelectionRects] and
    [RetrieveSelectedTextFromBuffer] give the same outcome, for every shape
    of the selection and also when they throw or do not return. *)
Theorem drag_direction
    (fuel : nat) (trimTrailingWhitespace : bool) (t : Terminal) :
  _GetSelectionRects fuel (swapEndPoints t) = _GetSelectionRects fuel t
  /\ RetrieveSelectedTextFromBuffer fuel trimTrailingWhitespace
       (swapEndPoints t)
     = RetrieveSelectedTextFromBuffer fuel trimTrailingWhitespace t.
Proof.
  assert (Hrects :
    _GetSelectionRects fuel (swapEndPoints t) = _GetSelectionRects fuel t).
  { unfold _GetSelectionRects, ShortAdd. cbn.
    destruct (_selectionActive t); cbn; [|reflexivity].
    destruct (LongToShort (COORD.Y (_selectionAnchor t) + _))
      as [[] temp1];
      destruct (LongToShort (COORD.Y (_endSelectionPosition t) + _))
        as [[] temp2]; try reflexivity.
    cbn. rewrite !Z.gtb_ltb.
    destruct (Z.leb_spec temp1 temp2), (Z.ltb_spec temp2 temp1),
             (Z.leb_spec temp2 temp1), (Z.ltb_spec temp1 temp2);
      try lia; cbn.
    - replace temp2 with temp1 by lia.
      erewrite selectionRows_loop_ext; [reflexivity|reflexivity|].
      intros row. unfold selectionRow, selectionRow_shape. cbn.
      now rewrite Z.eqb_refl, !orb_true_r, Z.min_comm, Z.max_comm.
    - erewrite selectionRows_loop_ext; [reflexivity|reflexivity|].
      intros row. reflexivity.
    - erewrite selectionRows_loop_ext; [reflexivity|reflexivity|].
      intros row. reflexivity. }
  split; [exact Hrects|].
  unfold RetrieveSelectedTextFromBuffer. now rewrite Hrects.
Qed.

(** X2. The queries do not read the live scroll offset: a change of
    [_scrollOffset] alone leaves the outcome of [_GetSelectionRects] and of
    [RetrieveSelectedTextFromBuffer] as it was, columns included. *)
Theorem queries_ignore_scroll_offset
    (fuel : nat) (trimTrailingWhitespace : bool) (t : Terminal)
    (scrollOffset : Z) :
  _GetSelectionRects fuel (Set_.scrollOffset scrollOffset t)
  = _GetSelectionRects fuel t
  /\ RetrieveSelectedTextFromBuffer fuel trimTrailingWhitespace
       (Set_.scrollOffset scrollOffset t)
     = RetrieveSelectedTextFromBuffer fuel trimTrailingWhitespace t.
Proof.
  assert (Hrects :
    _GetSelectionRects fuel (Set_.scrollOffset scrollOffset t)
    = _GetSelectionRects fuel t).
  { unfold _GetSelectionRects. cbn.
    destruct (_selectionActive t); cbn; [|reflexivity].
    destruct (ShortAdd (COORD.Y (_selectionAnchor t)) _) as [[] temp1];
      [|reflexivity].
    destruct (ShortAdd (COORD.Y (_endSelectionPosition t)) _) as [[] temp2];
      [|reflexivity].
    erewrite selectionRows_loop_ext; [reflexivity|reflexivity|].
    intros row. reflexivity. }
  split; [exact Hrects|].
  unfold RetrieveSelectedTextFromBuffer. now rewrite Hrects.
Qed.

(** X3. In box mode every row of an active selection has, before the wide
    glyph expansion, the same two columns: the smaller and the larger of the
    columns of the two end points, whatever rows the end points are on.
    What [_GetSelectionRects] returns is the expansion of these rectangles,
    and it returns it, given the fuel for the loop, when the end points
    resolve and the lower one is on a row less than [SHORT_MAX]. *)
Theorem box_rows_shape (t : Terminal) :
  _selectionActive t = true ->
  _boxSelection t = true ->
  let left :=
    Z.min (COORD.X (_selectionAnchor t)) (COORD.X (_endSelectionPosition t)) in
  let right :=
    Z.max (COORD.X (_selectionAnchor t)) (COORD.X (_endSelectionPosition t)) in
  let first := Z.min (anchorAbsoluteRow t) (endAbsoluteRow t) in
  let last := Z.max (anchorAbsoluteRow t) (endAbsoluteRow t) in
  shapedRows t
  = (fun row => SMALL_RECT.mk left row right row)
      <$> seqZ first (last - first + 1)
  /\ (forall (fuel : nat) (rects : list SMALL_RECT.t),
        _GetSelectionRects fuel t = Some (Ok rects) ->
        rects = expandRow t <$> shapedRows t)
  /\ (resolves t ->
      last < SHORT_MAX ->
      forall fuel : nat,
        (Z.to_nat (last - first + 1) < fuel)%nat ->
        _GetSelectionRects fuel t = Some (Ok (expandRow t <$> shapedRows t))).
Proof.
  intros Ha Hbox left right first last. subst left right first last.
  unfold anchorAbsoluteRow, endAbsoluteRow.
  rewrite <- topCoord_Y, <- bottomCoord_Y. fold (rowCount t).
  split; [|split].
  - unfold shapedRows. apply list_fmap_ext. intros _ row _.
    unfold selectionRow_shape. rewrite Hbox. cbn [orb].
    destruct (top_bottom_columns t) as [-> ->]. reflexivity.
  - intros fuel rects Hrects.
    apply _GetSelectionRects_inv in Hrects as (_ & _ & ->); [|assumption].
    apply selectedRows_expand.
  - intros Hr Hmax fuel Hfuel. rewrite <- selectedRows_expand.
    now apply _GetSelectionRects_returns.
Qed.

(** The selection from (3, 1) to (2, 3) in box mode: the columns 2 to 3 of
    the rows 1, 2 and 3. *)
Lemma box_rows_shape_witness :
  _selectionActive Example.three_rows_box = true
  /\ _boxSelection Example.three_rows_box = true
  /\ shapedRows Example.three_rows_box
     = [SMALL_RECT.mk 2 1 3 1; SMALL_RECT.mk 2 2 3 2; SMALL_RECT.mk 2 3 3 3]
  /\ _GetSelectionRects 4 Example.three_rows_box
     = Some (Ok [SMALL_RECT.mk 2 1 3 1; SMALL_RECT.mk 2 2 3 2;
                 SMALL_RECT.mk 2 3 3 3]).
Proof.
  destruct (box_rows_shape Example.three_rows_box eq_refl eq_refl)
    as (Hshape & _ & Hret).
  do 2 (split; [reflexivity|]).
  split; [rewrite Hshape; reflexivity|].
  rewrite (Hret ltac:(split; vm_compute; split; discriminate)
                ltac:(reflexivity) 4%nat ltac:(vm_compute; lia)).
  reflexivity.
Defined.

(** X4. For an active selection whose end points resolve and whose lower end
    point is on the row [SHORT_MAX], neither query returns, whatever the
    fuel: the loop counter is a [SHORT], [row++] wraps around from
    [SHORT_MAX] and the test [row <= lowerCoord.Y] holds again. *)
Theorem last_row_never_returns
    (fuel : nat) (trimTrailingWhitespace : bool) (t : Terminal) :
  _selectionActive t = true ->
  resolves t ->
  Z.max (anchorAbsoluteRow t) (endAbsoluteRow t) = SHORT_MAX ->
  _GetSelectionRects fuel t = None
  /\ RetrieveSelectedTextFromBuffer fuel trimTrailingWhitespace t = None.
Proof.
  intros Ha Hr Hmax.
  unfold anchorAbsoluteRow, endAbsoluteRow in Hmax.
  rewrite <- bottomCoord_Y in Hmax.
  assert (Hrects : _GetSelectionRects fuel t = None)
    by now apply _GetSelectionRects_diverges.
  split; [exact Hrects|].
  unfold RetrieveSelectedTextFromBuffer. now rewrite Hrects.
Qed.

(** The selection of one cell on the row [SHORT_MAX]: a thousand rounds of
    the loop are not enough. *)
Lemma last_row_never_returns_witness :
  _selectionActive Example.last_row = true
  /\ resolves Example.last_row
  /\ anchorAbsoluteRow Example.last_row = SHORT_MAX
  /\ endAbsoluteRow Example.last_row = SHORT_MAX
  /\ _GetSelectionRects 1000 Example.last_row = None
  /\ RetrieveSelectedTextFromBuffer 1000 true Example.last_row = None.
Proof.
  assert (Hr : resolves Example.last_row)
    by (split; vm_compute; split; discriminate).
  split; [reflexivity|]. split; [exact Hr|]. do 2 (split; [reflexivity|]).
  exact (last_row_never_returns 1000 true Example.last_row
           eq_refl Hr eq_refl).
Defined.

(** X5. On a buffer without wide glyphs the expansion changes nothing: the
    rectangles that [_GetSelectionRects] returns for an active selection
    are the rectangles of the shape of the selection themselves. *)
Theorem narrow_buffer_rows
    (fuel : nat) (t : Terminal) (rects : list SMALL_RECT.t) :
  narrow_buffer t ->
  _selectionActive t = true ->
  _GetSelectionRects fuel t = Some (Ok rects) ->
  rects = shapedRows t.
Proof.
  intros Hnarrow Ha Hrects.
  apply _GetSelectionRects_inv in Hrects as (_ & _ & ->); [|assumption].
  unfold selectedRows, shapedRows. apply list_fmap_ext. intros _ row _.
  unfold selectionRow, selectionRow_expand.
  rewrite _ExpandWideGlyphSelection_Left_narrow,
    _ExpandWideGlyphSelection_Right_narrow by now rewrite Hnarrow.
  now destruct (selectionRow_shape _ _ _ _).
Qed.

(** The selection from (3, 1) to (2, 3) on a buffer of narrow cells. *)
Lemma narrow_buffer_rows_witness :
  narrow_buffer Example.three_rows
  /\ _selectionActive Example.three_rows = true
  /\ _GetSelectionRects 4 Example.three_rows
     = Some (Ok (shapedRows Example.three_rows)).
Proof.
  assert (Hnarrow : narrow_buffer Example.three_rows)
    by (intros pos; reflexivity).
  split; [exact Hnarrow|]. split; [reflexivity|].
  assert (Hrects : _GetSelectionRects 4 Example.three_rows
    = Some (Ok [SMALL_RECT.mk 3 1 9 1; SMALL_RECT.mk 0 2 9 2;
                SMALL_RECT.mk 0 3 2 3])) by reflexivity.
  rewrite <- (narrow_buffer_rows 4 Example.three_rows _
                Hnarrow eq_refl Hrects).
  exact Hrects.
Defined.

(** *** Recording, once more *)

Lemma SetEndSelectionPosition_Ok_inv (t : Terminal) (position : COORD.t) :
  snd (SetEndSelectionPosition position t) = Ok tt ->
  in_short (_scrollOffset t)
  /\ in_short (COORD.Y position - _scrollOffset t)
  /\ in_short (_ViewStartIndex t).
Proof.
  destruct (in_short_dec (_scrollOffset t)) as [Hso|Hso];
    [|now rewrite SetEndSelectionPosition_narrowing].
  destruct (in_short_dec (COORD.Y position - _scrollOffset t))
    as [Hsub|Hsub]; [|now rewrite SetEndSelectionPosition_overflow].
  destruct (in_short_dec (_ViewStartIndex t)) as [Hview|Hview];
    [|now rewrite SetEndSelectionPosition_view_narrowing].
  now intros _.
Qed.

Lemma SetSelectionAnchor_Ok_inv (t : Terminal) (position : COORD.t) :
  snd (SetSelectionAnchor position t) = Ok tt ->
  in_short (_scrollOffset t)
  /\ in_short (COORD.Y position - _scrollOffset t)
  /\ in_short (_ViewStartIndex t).
Proof.
  destruct (in_short_dec (_scrollOffset t)) as [Hso|Hso];
    [|now rewrite SetSelectionAnchor_narrowing].
  destruct (in_short_dec (COORD.Y position - _scrollOffset t))
    as [Hsub|Hsub]; [|now rewrite SetSelectionAnchor_overflow].
  destruct (in_short_dec (_ViewStartIndex t)) as [Hview|Hview];
    [|now rewrite SetSelectionAnchor_view_narrowing].
  now intros _.
Qed.

(** All that [SetEndSelectionPosition] writes is the end and its offset. *)
Lemma SetEndSelectionPosition_writes (t : Terminal) (position : COORD.t) :
  exists (c : COORD.t) (yOffset : Z),
    fst (SetEndSelectionPosition position t)
    = Set_.endSelectionPosition_YOffset yOffset
        (Set_.endSelectionPosition c t).
Proof.
  destruct (in_short_dec (_scrollOffset t)) as [Hso|Hso].
  2: { exists position, (_endSelectionPosition_YOffset t).
       now rewrite SetEndSelectionPosition_narrowing. }
  destruct (in_short_dec (COORD.Y position - _scrollOffset t))
    as [Hsub|Hsub].
  2: { exists (failedPosition position), (_endSelectionPosition_YOffset t).
       now rewrite SetEndSelectionPosition_overflow. }
  destruct (in_short_dec (_ViewStartIndex t)) as [Hview|Hview].
  2: { exists (adjustedPosition t position),
         (_endSelectionPosition_YOffset t).
       now rewrite SetEndSelectionPosition_view_narrowing. }
  exists (adjustedPosition t position), (_ViewStartIndex t).
  now rewrite SetEndSelectionPosition_ok.
Qed.

(** X6. [SetEndSelectionPosition] never touches the anchor: whether it
    succeeds or throws, the anchor and its row offset, the active flag, the
    box mode, the scroll offset, the viewport and the buffer are as
    before. *)
Theorem extend_keeps_anchor (t : Terminal) (position : COORD.t) :
  _selectionAnchor (fst (SetEndSelectionPosition position t))
  = _selectionAnchor t
  /\ _selectionAnchor_YOffset (fst (SetEndSelectionPosition position t))
     = _selectionAnchor_YOffset t
  /\ _selectionActive (fst (SetEndSelectionPosition position t))
     = _selectionActive t
  /\ _boxSelection (fst (SetEndSelectionPosition position t))
     = _boxSelection t
  /\ _scrollOffset (fst (SetEndSelectionPosition position t))
     = _scrollOffset t
  /\ _mutableViewport (fst (SetEndSelectionPosition position t))
     = _mutableViewport t
  /\ _buffer (fst (SetEndSelectionPosition position t)) = _buffer t.
Proof.
  destruct (SetEndSelectionPosition_writes t position) as (c & o & ->).
  repeat split.
Qed.

(** X7. A call of [SetEndSelectionPosition] that throws has already
    overwritten the end of the selection and has left its row offset as it
    was. After the arithmetic overflow the end holds the column of the
    position and the row [SHORT_ERROR]; after a narrowing error it holds the
    position itself (the scroll offset is not a [SHORT]) or the adjusted
    position (the top row of the viewport is not a [SHORT]). *)
Theorem failed_extend_overwrites_end
    (t : Terminal) (position : COORD.t) (e : exception) :
  snd (SetEndSelectionPosition position t) = Throw e ->
  _endSelectionPosition_YOffset (fst (SetEndSelectionPosition position t))
  = _endSelectionPosition_YOffset t
  /\ match e with
     | ArithmeticOverflow =>
         in_short (_scrollOffset t)
         /\ _endSelectionPosition (fst (SetEndSelectionPosition position t))
            = failedPosition position
     | NarrowingError =>
         (~ in_short (_scrollOffset t)
          /\ _endSelectionPosition (fst (SetEndSelectionPosition position t))
             = position)
         \/ (~ in_short (_ViewStartIndex t)
             /\ _endSelectionPosition
                  (fst (SetEndSelectionPosition position t))
                = adjustedPosition t position)
     end.
Proof.
  destruct (in_short_dec (_scrollOffset t)) as [Hso|Hso].
  2: { rewrite SetEndSelectionPosition_narrowing by assumption.
       intros [= <-]. split; [reflexivity|]. left. now split. }
  destruct (in_short_dec (COORD.Y position - _scrollOffset t))
    as [Hsub|Hsub].
  2: { rewrite SetEndSelectionPosition_overflow by assumption.
       intros [= <-]. split; [reflexivity|]. now split. }
  destruct (in_short_dec (_ViewStartIndex t)) as [Hview|Hview].
  2: { rewrite SetEndSelectionPosition_view_narrowing by assumption.
       intros [= <-]. split; [reflexivity|]. right. now split. }
  now rewrite SetEndSelectionPosition_ok.
Qed.

(** After the three rows from (3, 1) to (2, 3) have been selected and the
    view has been scrolled back by [SHORT_MAX] rows, extending to two rows
    above the viewport throws, and the end of the selection is then on the
    row [SHORT_ERROR] instead of the row 3. *)
Lemma failed_extend_overwrites_end_witness :
  COORD.Y (_endSelectionPosition Example.three_rows) = 3
  /\ snd (SetEndSelectionPosition (COORD.mk 0 (-2))
            (Set_.scrollOffset SHORT_MAX Example.three_rows))
     = Throw ArithmeticOverflow
  /\ _endSelectionPosition
       (fst (SetEndSelectionPosition (COORD.mk 0 (-2))
               (Set_.scrollOffset SHORT_MAX Example.three_rows)))
     = COORD.mk 0 (-1).
Proof.
  split; [reflexivity|]. split; [reflexivity|].
  exact (proj2 (proj2 (failed_extend_overwrites_end
                         (Set_.scrollOffset SHORT_MAX Example.three_rows)
                         (COORD.mk 0 (-2)) ArithmeticOverflow eq_refl))).
Defined.

(** X8. A call of [SetSelectionAnchor] that throws does not make the
    selection active and leaves the end of the selection and both row
    offsets as they were, but it has already overwritten the anchor: after
    the arithmetic overflow the anchor holds the column of the position and
    the row [SHORT_ERROR]; after a narrowing error it holds the position
    itself or the adjusted position. *)
Theorem failed_begin_overwrites_anchor
    (t : Terminal) (position : COORD.t) (e : exception) :
  snd (SetSelectionAnchor position t) = Throw e ->
  _selectionActive (fst (SetSelectionAnchor position t)) = _selectionActive t
  /\ _endSelectionPosition (fst (SetSelectionAnchor position t))
     = _endSelectionPosition t
  /\ _endSelectionPosition_YOffset (fst (SetSelectionAnchor position t))
     = _endSelectionPosition_YOffset t
  /\ _selectionAnchor_YOffset (fst (SetSelectionAnchor position t))
     = _selectionAnchor_YOffset t
  /\ match e with
     | ArithmeticOverflow =>
         in_short (_scrollOffset t)
         /\ _selectionAnchor (fst (SetSelectionAnchor position t))
            = failedPosition position
     | NarrowingError =>
         (~ in_short (_scrollOffset t)
          /\ _selectionAnchor (fst (SetSelectionAnchor position t))
             = position)
         \/ (~ in_short (_ViewStartIndex t)
             /\ _selectionAnchor (fst (SetSelectionAnchor position t))
                = adjustedPosition t position)
     end.
Proof.
  destruct (in_short_dec (_scrollOffset t)) as [Hso|Hso].
  2: { rewrite SetSelectionAnchor_narrowing by assumption.
       intros [= <-]. do 4 (split; [reflexivity|]). left. now split. }
  destruct (in_short_dec (COORD.Y position - _scrollOffset t))
    as [Hsub|Hsub].
  2: { rewrite SetSelectionAnchor_overflow by assumption.
       intros [= <-]. do 4 (split; [reflexivity|]). now split. }
  destruct (in_short_dec (_ViewStartIndex t)) as [Hview|Hview].
  2: { rewrite SetSelectionAnchor_view_narrowing by assumption.
       intros [= <-]. do 4 (split; [reflexivity|]). right. now split. }
  now rewrite SetSelectionAnchor_ok.
Qed.

(** Beginning a selection two rows above the viewport of a terminal scrolled
    back by [SHORT_MAX] rows throws: the terminal stays without a selection
    and its anchor is on the row [SHORT_ERROR]. *)
Lemma failed_begin_overwrites_anchor_witness :
  snd (SetSelectionAnchor (COORD.mk 4 (-2)) Example.deep_scrolled)
  = Throw ArithmeticOverflow
  /\ _selectionActive
       (fst (SetSelectionAnchor (COORD.mk 4 (-2)) Example.deep_scrolled))
     = false
  /\ _selectionAnchor
       (fst (SetSelectionAnchor (COORD.mk 4 (-2)) Example.deep_scrolled))
     = COORD.mk 4 (-1).
Proof.
  destruct (failed_begin_overwrites_anchor Example.deep_scrolled
              (COORD.mk 4 (-2)) ArithmeticOverflow eq_refl)
    as (Hactive & _ & _ & _ & _ & Hanchor).
  split; [reflexivity|]. split; [exact Hactive|exact Hanchor].
Defined.

(** X9. Box mode and the recording of an end point do not interfere:
    [SetSelectionAnchor] and [SetEndSelectionPosition] have the same outcome
    and do the same writes whether the box mode is set before or after
    them. *)
Theorem box_mode_commutes_with_recording
    (isEnabled : bool) (t : Terminal) (position : COORD.t) :
  SetEndSelectionPosition position (SetBoxSelection isEnabled t)
  = (SetBoxSelection isEnabled (fst (SetEndSelectionPosition position t)),
     snd (SetEndSelectionPosition position t))
  /\ SetSelectionAnchor position (SetBoxSelection isEnabled t)
     = (SetBoxSelection isEnabled (fst (SetSelectionAnchor position t)),
        snd (SetSelectionAnchor position t)).
Proof.
  destruct (in_short_dec (_scrollOffset t)) as [Hso|Hso];
    [|now rewrite !SetEndSelectionPosition_narrowing,
        !SetSelectionAnchor_narrowing].
  destruct (in_short_dec (COORD.Y position - _scrollOffset t))
    as [Hsub|Hsub];
    [|now rewrite !SetEndSelectionPosition_overflow,
        !SetSelectionAnchor_overflow].
  destruct (in_short_dec (_ViewStartIndex t)) as [Hview|Hview];
    [|now rewrite !SetEndSelectionPosition_view_narrowing,
        !SetSelectionAnchor_view_narrowing].
  now rewrite !SetEndSelectionPosition_ok, !SetSelectionAnchor_ok.
Qed.

(** X10. A successful [SetSelectionAnchor] forgets the selection there was:
    on two terminals that differ in their selection only (the same box mode,
    scroll offset, viewport and buffer) it gives the same terminal. *)
Theorem begin_forgets_previous (t1 t2 : Terminal) (position : COORD.t) :
  _boxSelection t1 = _boxSelection t2 ->
  _scrollOffset t1 = _scrollOffset t2 ->
  _mutableViewport t1 = _mutableViewport t2 ->
  _buffer t1 = _buffer t2 ->
  snd (SetSelectionAnchor position t1) = Ok tt ->
  SetSelectionAnchor position t2 = SetSelectionAnchor position t1.
Proof.
  intros Hbox Hso Hview Hbuffer Hok.
  apply SetSelectionAnchor_Ok_inv in Hok as (H1 & H2 & H3).
  rewrite (SetSelectionAnchor_ok t1) by assumption.
  rewrite (SetSelectionAnchor_ok t2)
    by (unfold _ViewStartIndex in *; rewrite <- ?Hso, <- ?Hview; assumption).
  unfold Set_.endSelectionPosition_YOffset, Set_.endSelectionPosition,
    Set_.selectionActive, Set_.selectionAnchor_YOffset, Set_.selectionAnchor,
    adjustedPosition, _ViewStartIndex. cbn.
  now rewrite Hbox, Hso, Hview, Hbuffer.
Qed.

(** Beginning at (5, 2) on the terminal with the three rows selected gives
    the terminal that beginning at (5, 2) without a selection gives. *)
Lemma begin_forgets_previous_witness :
  snd (SetSelectionAnchor (COORD.mk 5 2) (Example.idle Example.narrow_cells))
  = Ok tt
  /\ SetSelectionAnchor (COORD.mk 5 2) Example.three_rows
     = SetSelectionAnchor (COORD.mk 5 2) (Example.idle Example.narrow_cells).
Proof.
  split; [reflexivity|].
  exact (begin_forgets_previous (Example.idle Example.narrow_cells)
           Example.three_rows (COORD.mk 5 2)
           eq_refl eq_refl eq_refl eq_refl eq_refl).
Defined.

(** X11. A successful [SetEndSelectionPosition] leaves no trace of the call
    before it: extending to a first position and then to a second one gives
    the terminal that extending to the second one alone gives, whether the
    first call succeeded or threw. *)
Theorem last_extend_wins (t : Terminal) (first second : COORD.t) :
  snd (SetEndSelectionPosition second t) = Ok tt ->
  SetEndSelectionPosition second (fst (SetEndSelectionPosition first t))
  = SetEndSelectionPosition second t.
Proof.
  intros Hok. apply SetEndSelectionPosition_Ok_inv in Hok as (H1 & H2 & H3).
  destruct (SetEndSelectionPosition_writes t first) as (c & o & ->).
  rewrite (SetEndSelectionPosition_ok t) by assumption.
  now rewrite SetEndSelectionPosition_ok.
Qed.

(** Dragging from (3, 1) over (7, 2) to (2, 3) selects what dragging from
    (3, 1) to (2, 3) selects. *)
Lemma last_extend_wins_witness :
  snd (SetEndSelectionPosition (COORD.mk 2 3)
         (fst (SetSelectionAnchor (COORD.mk 3 1)
                 (Example.idle Example.narrow_cells)))) = Ok tt
  /\ fst (SetEndSelectionPosition (COORD.mk 2 3)
            (fst (SetEndSelectionPosition (COORD.mk 7 2)
                    (fst (SetSelectionAnchor (COORD.mk 3 1)
                            (Example.idle Example.narrow_cells))))))
     = Example.three_rows.
Proof.
  split; [reflexivity|].
  now rewrite (last_extend_wins
                 (fst (SetSelectionAnchor (COORD.mk 3 1)
                         (Example.idle Example.narrow_cells)))
                 (COORD.mk 7 2) (COORD.mk 2 3) eq_refl).
Defined.

Lemma selectedRows_one_row (t : Terminal) :
  anchorAbsoluteRow t = endAbsoluteRow t ->
  selectedRows t
  = [selectionRow_expand t (anchorAbsoluteRow t)
       (SMALL_RECT.mk
          (Z.min (COORD.X (_selectionAnchor t))
                 (COORD.X (_endSelectionPosition t)))
          (anchorAbsoluteRow t)
          (Z.max (COORD.X (_selectionAnchor t))
                 (COORD.X (_endSelectionPosition t)))
          (anchorAbsoluteRow t))].
Proof.
  intros Hsame. unfold anchorAbsoluteRow, endAbsoluteRow in *.
  assert (Htop : topCoord t = anchorAbsolute t)
    by (unfold topCoord; now rewrite Hsame, Z.leb_refl).
  assert (Hbottom : bottomCoord t = endAbsolute t)
    by (unfold bottomCoord; now rewrite Hsame, Z.gtb_ltb, Z.ltb_irrefl).
  unfold selectedRows, rowCount. rewrite Htop, Hbottom, <- Hsame.
  replace (COORD.Y (anchorAbsolute t) - COORD.Y (anchorAbsolute t) + 1)
    with 1 by lia.
  rewrite seqZ_one. cbn [fmap list_fmap].
  unfold selectionRow, selectionRow_shape. rewrite <- Hsame.
  now rewrite Z.eqb_refl, orb_true_r.
Qed.

(** X12. A successful [SetSelectionAnchor] selects one cell: the selection
    is active and both end points resolve to the column of the position and
    to the row of the position counted from the first visible row of the
    buffer. When that row is a [SHORT] less than [SHORT_MAX],
    [_GetSelectionRects] returns the one rectangle of that cell, with the
    wide glyph expansion of its column on either side. *)
Theorem begin_selects_point
    (fuel : nat) (t : Terminal) (position : COORD.t) :
  snd (SetSelectionAnchor position t) = Ok tt ->
  let begun := fst (SetSelectionAnchor position t) in
  let row := COORD.Y position + visibleStart t in
  _selectionActive begun = true
  /\ anchorAbsolute begun = COORD.mk (COORD.X position) row
  /\ endAbsolute begun = COORD.mk (COORD.X position) row
  /\ (in_short row ->
      row < SHORT_MAX ->
      (1 < fuel)%nat ->
      _GetSelectionRects fuel begun
      = Some (Ok [SMALL_RECT.mk
                    (_ExpandWideGlyphSelection_Left t (COORD.X position) row)
                    row
                    (_ExpandWideGlyphSelection_Right t (COORD.X position) row)
                    row])).
Proof.
  intros Hok begun row.
  apply SetSelectionAnchor_Ok_inv in Hok as (H1 & H2 & H3).
  subst begun. rewrite SetSelectionAnchor_ok by assumption. cbn [fst].
  set (begun := Set_.endSelectionPosition_YOffset _ _).
  assert (Hanchor : anchorAbsolute begun = COORD.mk (COORD.X position) row).
  { unfold anchorAbsolute, row, visibleStart. cbn. f_equal. lia. }
  assert (Hend : endAbsolute begun = COORD.mk (COORD.X position) row).
  { unfold endAbsolute, row, visibleStart. cbn. f_equal. lia. }
  split; [reflexivity|]. split; [exact Hanchor|]. split; [exact Hend|].
  intros Hrow Hmax Hfuel.
  assert (Hsame : anchorAbsoluteRow begun = endAbsoluteRow begun)
    by (unfold anchorAbsoluteRow, endAbsoluteRow; now rewrite Hanchor, Hend).
  assert (Hrows : anchorAbsoluteRow begun = row)
    by (unfold anchorAbsoluteRow; now rewrite Hanchor).
  rewrite _GetSelectionRects_returns.
  - rewrite selectedRows_one_row by assumption. rewrite Hrows.
    unfold selectionRow_expand. cbn.
    now rewrite Z.min_id, Z.max_id.
  - reflexivity.
  - unfold resolves. now rewrite <- Hsame, Hrows.
  - rewrite bottomCoord_Y. fold (anchorAbsoluteRow begun).
    fold (endAbsoluteRow begun). rewrite <- Hsame, Hrows. lia.
  - unfold rowCount. rewrite bottomCoord_Y, topCoord_Y.
    fold (anchorAbsoluteRow begun). fold (endAbsoluteRow begun).
    rewrite <- Hsame, Hrows.
    replace (Z.max row row - Z.min row row + 1) with 1 by lia. exact Hfuel.
Qed.

(** Beginning on the trailing half in the column 4 of the row 2 selects the
    whole wide glyph, the columns 3 and 4. *)
Lemma begin_selects_point_witness :
  snd (SetSelectionAnchor (COORD.mk 4 2) (Example.idle Example.wide_cells))
  = Ok tt
  /\ _GetSelectionRects 2
       (fst (SetSelectionAnchor (COORD.mk 4 2)
               (Example.idle Example.wide_cells)))
     = Some (Ok [SMALL_RECT.mk 3 2 4 2]).
Proof.
  split; [reflexivity|].
  destruct (begin_selects_point 2 (Example.idle Example.wide_cells)
              (COORD.mk 4 2) eq_refl) as (_ & _ & _ & Hrects).
  rewrite Hrects; [reflexivity|vm_compute; split; discriminate
                  |reflexivity|lia].
Defined.

(** X13. The rows of a drag during which the terminal scrolls. A selection
    is begun at [anchor]; then the scroll offset and the viewport change;
    then the selection is extended to [extent]. Each end point resolves to
    its own row counted from the first visible row of the buffer at the time
    of its recording, and, when both rows are [SHORT]s less than
    [SHORT_MAX], [_GetSelectionRects] returns one rectangle for each row
    from the smaller to the larger of the two, in ascending order. *)
Theorem drag_rows
    (fuel : nat) (t : Terminal) (anchor extent : COORD.t)
    (scrollOffset : Z) (viewport : Viewport.t) :
  let begun := fst (SetSelectionAnchor anchor t) in
  let scrolled :=
    Set_.scrollOffset scrollOffset (Set_.mutableViewport viewport begun) in
  let dragged := fst (SetEndSelectionPosition extent scrolled) in
  let a := COORD.Y anchor + visibleStart t in
  let e := COORD.Y extent + visibleStart scrolled in
  snd (SetSelectionAnchor anchor t) = Ok tt ->
  snd (SetEndSelectionPosition extent scrolled) = Ok tt ->
  _selectionActive dragged = true
  /\ anchorAbsoluteRow dragged = a
  /\ endAbsoluteRow dragged = e
  /\ (in_short a ->
      in_short e ->
      Z.max a e < SHORT_MAX ->
      (Z.to_nat (Z.max a e - Z.min a e + 1) < fuel)%nat ->
      absoluteRows (_GetSelectionRects fuel dragged)
      = Some (Ok (seqZ (Z.min a e) (Z.max a e - Z.min a e + 1)))).
Proof.
  intros begun scrolled dragged a e Hbegin Hextend.
  apply SetSelectionAnchor_Ok_inv in Hbegin as (H1 & H2 & H3).
  apply SetEndSelectionPosition_Ok_inv in Hextend as (H4 & H5 & H6).
  assert (Hactive : _selectionActive dragged = true).
  { subst dragged. rewrite SetEndSelectionPosition_ok by assumption.
    subst scrolled begun. now rewrite SetSelectionAnchor_ok. }
  assert (Ha : anchorAbsoluteRow dragged = a).
  { subst dragged. rewrite SetEndSelectionPosition_ok by assumption.
    subst scrolled begun. rewrite SetSelectionAnchor_ok by assumption.
    unfold anchorAbsoluteRow, anchorAbsolute, a, visibleStart. cbn. lia. }
  assert (He : endAbsoluteRow dragged = e).
  { subst dragged. rewrite SetEndSelectionPosition_ok by assumption.
    unfold endAbsoluteRow, endAbsolute, e, visibleStart. cbn.
    fold (_ViewStartIndex scrolled). lia. }
  split; [exact Hactive|]. split; [exact Ha|]. split; [exact He|].
  intros Hina Hine Hmax Hfuel.
  rewrite _GetSelectionRects_returns.
  - cbn [absoluteRows]. rewrite selectedRows_Top. unfold rowCount.
    rewrite topCoord_Y, bottomCoord_Y.
    fold (anchorAbsoluteRow dragged). fold (endAbsoluteRow dragged).
    now rewrite Ha, He.
  - exact Hactive.
  - unfold resolves. now rewrite Ha, He.
  - rewrite bottomCoord_Y. fold (anchorAbsoluteRow dragged).
    fold (endAbsoluteRow dragged). now rewrite Ha, He.
  - unfold rowCount. rewrite topCoord_Y, bottomCoord_Y.
    fold (anchorAbsoluteRow dragged). fold (endAbsoluteRow dragged).
    now rewrite Ha, He.
Qed.

(** Begun at (3, 1) with the first visible row 0, extended to (2, 3) with
    the first visible row 2: the rows 1 to 5 of the buffer. *)
Lemma drag_rows_witness :
  _selectionActive Example.dragged_while_scrolling = true
  /\ anchorAbsoluteRow Example.dragged_while_scrolling = 1
  /\ endAbsoluteRow Example.dragged_while_scrolling = 5
  /\ absoluteRows (_GetSelectionRects 6 Example.dragged_while_scrolling)
     = Some (Ok [1; 2; 3; 4; 5]).
Proof.
  destruct (drag_rows 6 (Example.idle Example.narrow_cells)
              (COORD.mk 3 1) (COORD.mk 2 3) 5 (Clamped.viewport 7 9)
              eq_refl eq_refl) as (Hactive & Ha & He & Hrows).
  split; [exact Hactive|]. split; [exact Ha|]. split; [exact He|].
  unfold Example.dragged_while_scrolling.
  rewrite Hrows; [reflexivity|vm_compute; split; discriminate
                 |vm_compute; split; discriminate|reflexivity
                 |vm_compute; lia].
Defined.

(** *** The cells of a stream selection and the text *)

(** X14. A stream selection over several rows is an interval of the reading
    order. Before the wide glyph expansion, a cell in a column of the buffer
    lies in a rectangle of the selection exactly when it is at or after the
    upper end point and at or before the lower end point, reading row by
    row from the left to the right. *)
Theorem stream_cells_reading_order (t : Terminal) (x row : Z) :
  _boxSelection t = false ->
  anchorAbsoluteRow t <> endAbsoluteRow t ->
  0 <= x <= Viewport.RightInclusive (TextBuffer.GetSize (_buffer t)) ->
  (exists r : SMALL_RECT.t,
      r ∈ shapedRows t
      /\ SMALL_RECT.Top r = row
      /\ SMALL_RECT.Left r <= x <= SMALL_RECT.Right r)
  <-> (COORD.Y (topCoord t) < row
       \/ (row = COORD.Y (topCoord t) /\ COORD.X (topCoord t) <= x))
      /\ (row < COORD.Y (bottomCoord t)
          \/ (row = COORD.Y (bottomCoord t) /\ x <= COORD.X (bottomCoord t))).
Proof.
  intros Hbox Hrows Hx.
  assert (Hlt : COORD.Y (topCoord t) < COORD.Y (bottomCoord t)).
  { rewrite topCoord_Y, bottomCoord_Y.
    unfold anchorAbsoluteRow, endAbsoluteRow in Hrows. lia. }
  assert (Hshape : forall row' : Z,
    selectionRow_shape t (topCoord t) (bottomCoord t) row'
    = SMALL_RECT.mk
        (if row' =? COORD.Y (topCoord t) then COORD.X (topCoord t) else 0)
        row'
        (if row' =? COORD.Y (bottomCoord t) then COORD.X (bottomCoord t)
         else Viewport.RightInclusive (TextBuffer.GetSize (_buffer t)))
        row').
  { intros row'. unfold selectionRow_shape. rewrite Hbox. cbn [orb].
    destruct (Z.eqb_spec (COORD.Y (topCoord t)) (COORD.Y (bottomCoord t)));
      [lia|reflexivity]. }
  unfold shapedRows, rowCount. split.
  - intros (r & Hin & Htop & Hcols).
    apply list_elem_of_fmap in Hin as (row' & -> & Hrow'%elem_of_seqZ).
    rewrite Hshape in Htop, Hcols. cbn in Htop, Hcols. subst row'.
    destruct (Z.eqb_spec row (COORD.Y (topCoord t))),
             (Z.eqb_spec row (COORD.Y (bottomCoord t))); lia.
  - intros [Hafter Hbefore].
    exists (selectionRow_shape t (topCoord t) (bottomCoord t) row).
    split; [apply list_elem_of_fmap; exists row; split;
            [reflexivity|apply elem_of_seqZ; lia]|].
    rewrite Hshape. cbn.
    destruct (Z.eqb_spec row (COORD.Y (topCoord t))),
             (Z.eqb_spec row (COORD.Y (bottomCoord t))); lia.
Qed.

(** In the selection from (3, 1) to (2, 3) the cell (2, 1), before the
    anchor on its row, is not selected, and the cell (7, 2) is. *)
Lemma stream_cells_reading_order_witness :
  _boxSelection Example.three_rows = false
  /\ anchorAbsoluteRow Example.three_rows <> endAbsoluteRow Example.three_rows
  /\ (exists r : SMALL_RECT.t,
         r ∈ shapedRows Example.three_rows
         /\ SMALL_RECT.Top r = 2
         /\ SMALL_RECT.Left r <= 7 <= SMALL_RECT.Right r)
  /\ ~ (exists r : SMALL_RECT.t,
           r ∈ shapedRows Example.three_rows
           /\ SMALL_RECT.Top r = 1
           /\ SMALL_RECT.Left r <= 2 <= SMALL_RECT.Right r).
Proof.
  assert (Hrows : anchorAbsoluteRow Example.three_rows
                  <> endAbsoluteRow Example.three_rows) by discriminate.
  assert (Hin : forall x : Z,
            0 <= x <= 9 ->
            0 <= x <= Viewport.RightInclusive
                        (TextBuffer.GetSize (_buffer Example.three_rows)))
    by (intros x Hx; exact Hx).
  split; [reflexivity|]. split; [exact Hrows|]. split.
  - apply (stream_cells_reading_order Example.three_rows 7 2
             eq_refl Hrows (Hin 7 ltac:(lia))).
    vm_compute. split; left; reflexivity.
  - intros Hcell.
    destruct (proj1 (stream_cells_reading_order Example.three_rows 2 1
                       eq_refl Hrows (Hin 2 ltac:(lia))) Hcell)
      as [[Hafter|[_ Hafter]] _].
    + vm_compute in Hafter. discriminate.
    + vm_compute in Hafter. now apply Hafter.
Defined.

Lemma string_append_nil_r (s : string) : String.append s EmptyString = s.
Proof. induction s as [|c s IH]; cbn; [reflexivity|now rewrite IH]. Qed.

Lemma string_append_assoc (s1 s2 s3 : string) :
  String.append (String.append s1 s2) s3
  = String.append s1 (String.append s2 s3).
Proof. induction s1 as [|c s1 IH]; cbn; [reflexivity|now rewrite IH]. Qed.

Lemma fold_left_append (data : list wstring) (result : wstring) :
  fold_left String.append data result
  = String.append result (String.concat EmptyString data).
Proof.
  revert result. induction data as [|text data IH]; intros result.
  - cbn. now rewrite string_append_nil_r.
  - cbn [fold_left]. rewrite IH, string_append_assoc. f_equal.
    destruct data as [|text' data]; cbn; [now rewrite string_append_nil_r|].
    reflexivity.
Qed.

(** X15. The text of the selection is the fragments that the buffer gives
    for the rectangles of [_GetSelectionRects], asked for in stream form
    exactly when box mode is off, joined in their order with nothing in
    between. *)
Theorem text_is_joined_fragments
    (fuel : nat) (trimTrailingWhitespace : bool) (t : Terminal)
    (rects : list SMALL_RECT.t) :
  _GetSelectionRects fuel t = Some (Ok rects) ->
  RetrieveSelectedTextFromBuffer fuel trimTrailingWhitespace t
  = Some (Ok (String.concat EmptyString
                (TextBuffer.GetTextForClipboard (_buffer t)
                   (negb (_boxSelection t)) trimTrailingWhitespace rects))).
Proof.
  intros Hrects. unfold RetrieveSelectedTextFromBuffer, concat_text.
  now rewrite Hrects, fold_left_append.
Qed.

(** The three rows from (3, 1) to (2, 3), one fragment of the buffer for
    each. *)
Lemma text_is_joined_fragments_witness :
  _GetSelectionRects 4 Example.three_rows
  = Some (Ok [SMALL_RECT.mk 3 1 9 1; SMALL_RECT.mk 0 2 9 2;
              SMALL_RECT.mk 0 3 2 3])
  /\ RetrieveSelectedTextFromBuffer 4 false Example.three_rows
     = Some (Ok "..."%string).
Proof.
  split; [reflexivity|].
  now rewrite (text_is_joined_fragments 4 false Example.three_rows _ eq_refl).
Defined.

(** X16. No edge of the selection splits a wide glyph. When the halves of
    every wide glyph are side by side and the viewport steps from one to the
    other, no rectangle that [_GetSelectionRects] returns begins on a
    trailing half or ends on a leading half. *)
Theorem glyphs_never_split
    (fuel : nat) (t : Terminal) (rects : list SMALL_RECT.t) :
  glyphs_whole t ->
  _GetSelectionRects fuel t = Some (Ok rects) ->
  Forall (fun r =>
            TextBuffer.GetCellDataAt (_buffer t)
              (COORD.mk (SMALL_RECT.Left r) (SMALL_RECT.Top r))
            <> DbcsAttribute.Trailing
            /\ TextBuffer.GetCellDataAt (_buffer t)
                 (COORD.mk (SMALL_RECT.Right r) (SMALL_RECT.Top r))
               <> DbcsAttribute.Leading) rects.
Proof.
  intros Hwhole Hrects.
  destruct (_selectionActive t) eqn:Ha.
  2: { rewrite _GetSelectionRects_inactive in Hrects by assumption.
       injection Hrects as <-. constructor. }
  apply _GetSelectionRects_inv in Hrects as (_ & _ & ->); [|assumption].
  unfold selectedRows. apply Forall_fmap, Forall_forall. intros row _.
  unfold selectionRow, selectionRow_expand. cbn [compose].
  rewrite selectionRow_shape_Top. cbn [SMALL_RECT.Left SMALL_RECT.Right
    SMALL_RECT.Top].
  generalize (SMALL_RECT.Left
                (selectionRow_shape t (topCoord t) (bottomCoord t) row)).
  generalize (SMALL_RECT.Right
                (selectionRow_shape t (topCoord t) (bottomCoord t) row)).
  intros right left. split.
  - pose proof (Hwhole (COORD.mk left row)) as Hcell.
    unfold _ExpandWideGlyphSelection_Left.
    destruct (TextBuffer.GetCellDataAt (_buffer t) (COORD.mk left row))
      eqn:Hattr; cbn.
    + now rewrite Hattr.
    + now rewrite Hattr.
    + destruct Hcell as (pos' & -> & Hleading). cbn in *.
      now rewrite Hleading.
  - pose proof (Hwhole (COORD.mk right row)) as Hcell.
    unfold _ExpandWideGlyphSelection_Right.
    destruct (TextBuffer.GetCellDataAt (_buffer t) (COORD.mk right row))
      eqn:Hattr; cbn.
    + now rewrite Hattr.
    + destruct Hcell as (pos' & -> & Htrailing). cbn in *.
      now rewrite Htrailing.
    + now rewrite Hattr.
Qed.

(** The selection from (4, 1) to the leading half in the column 3 of the
    row 2 ends in the column 4, on the trailing half. *)
Lemma glyphs_never_split_witness :
  glyphs_whole Example.across_glyph
  /\ _GetSelectionRects 3 Example.across_glyph
     = Some (Ok [SMALL_RECT.mk 4 1 9 1; SMALL_RECT.mk 0 2 4 2])
  /\ Forall (fun r =>
               Example.wide_cells
                 (COORD.mk (SMALL_RECT.Left r) (SMALL_RECT.Top r))
               <> DbcsAttribute.Trailing
               /\ Example.wide_cells
                    (COORD.mk (SMALL_RECT.Right r) (SMALL_RECT.Top r))
                  <> DbcsAttribute.Leading)
       [SMALL_RECT.mk 4 1 9 1; SMALL_RECT.mk 0 2 4 2].
Proof.
  assert (Hwhole : glyphs_whole Example.across_glyph).
  { intros [x y].
    change (_buffer Example.across_glyph)
      with (Example.buffer Example.wide_cells).
    change (_mutableViewport Example.across_glyph)
      with (Clamped.viewport 0 9).
    cbn. unfold Example.wide_cells. cbn.
    destruct (Z.eqb_spec x 3) as [Hx3|]; destruct (Z.eqb_spec x 4) as [Hx4|];
      destruct (Z.eqb_spec y 2) as [Hy|]; cbn; try exact I;
      try (exfalso; lia).
    - subst x y. exists (COORD.mk 4 2). split; reflexivity.
    - subst x y. exists (COORD.mk 3 2). split; reflexivity. }
  split; [exact Hwhole|]. split; [reflexivity|].
  exact (glyphs_never_split 3 Example.across_glyph _ Hwhole eq_refl).
Defined.
